(** * Marketing campaign performance analysis: KPI derivation, aggregation
    and tier classification

    A shallow embedding of [src/feature_engineering.py]
    ([MarketingFeatureEngineer]) and [src/roi_calculation.py]
    ([MarketingROICalculator]), and the properties of the specification
    proved or refuted on it; then of [src/data_cleaning.py]
    ([MarketingDataCleaner]), of the results store with [save_results] and
    of the files [src/visualization.py] reads, with properties read off
    the code.

    Numbers.  The columns of the data frames are float64 (or int64, which
    pandas divides with true division into float64).  A cell is modelled as
    an exact rational extended with the three special values of IEEE 754
    that the code relies on: the two infinities and not-a-number.  Rounding
    is abstracted (every finite result is the exact quotient, sum or
    product), int64 wrap-around is abstracted, and the sign of zero is
    dropped (a zero divisor is taken as +0). *)

From Stdlib Require Import QArith Qcanon ZArith List String Ascii Bool Lia
  Permutation.
Import ListNotations.

Local Open Scope Qc_scope.

(** ** Extended rationals: the numeric cells of a data frame *)

Module Num.

Inductive fnum : Type :=
| Fin (q : Qc)
| PInf
| NInf
| NaN.

(** Integer and fraction literals. *)
Definition qz (z : Z) : Qc := Q2Qc (inject_Z z).
Definition of_Z (z : Z) : fnum := Fin (qz z).
Definition frac (n : Z) (d : positive) : fnum := Fin (Q2Qc (n # d)).

(** A value that is no number: not-a-number or an infinity. *)
Definition undefined (x : fnum) : Prop :=
  match x with Fin _ => False | _ => True end.

Definition zero : fnum := of_Z 0.
Definition one : fnum := of_Z 1.

Definition is_nan (x : fnum) : bool :=
  match x with NaN => true | _ => false end.


(** The sign of a rational, as a [comparison] with 0. *)
Definition sgn (q : Qc) : comparison := q ?= 0.

Definition fneg (x : fnum) : fnum :=
  match x with
  | Fin q => Fin (- q)
  | PInf => NInf
  | NInf => PInf
  | NaN => NaN
  end.

Definition fadd (x y : fnum) : fnum :=
  match x, y with
  | NaN, _ | _, NaN => NaN
  | Fin a, Fin b => Fin (a + b)
  | PInf, NInf | NInf, PInf => NaN
  | PInf, _ | _, PInf => PInf
  | NInf, _ | _, NInf => NInf
  end.

Definition fsub (x y : fnum) : fnum := fadd x (fneg y).

(** An infinity with the sign of [c]; [Eq] is the invalid operation. *)
Definition inf_of (c : comparison) : fnum :=
  match c with Gt => PInf | Lt => NInf | Eq => NaN end.

Definition fmul (x y : fnum) : fnum :=
  match x, y with
  | NaN, _ | _, NaN => NaN
  | Fin a, Fin b => Fin (a * b)
  | PInf, Fin b | Fin b, PInf => inf_of (sgn b)
  | NInf, Fin b | Fin b, NInf => inf_of (CompOpp (sgn b))
  | PInf, PInf | NInf, NInf => PInf
  | PInf, NInf | NInf, PInf => NInf
  end.

(** Division never raises: x/0 is an infinity of the sign of x, 0/0 is
    not-a-number. *)
Definition fdiv (x y : fnum) : fnum :=
  match x, y with
  | NaN, _ | _, NaN => NaN
  | Fin a, Fin b =>
      match sgn b with
      | Eq => inf_of (sgn a)
      | _ => Fin (a / b)
      end
  | Fin _, (PInf | NInf) => Fin 0
  | PInf, Fin b =>
      match sgn b with Lt => NInf | _ => PInf end
  | NInf, Fin b =>
      match sgn b with Lt => PInf | _ => NInf end
  | (PInf | NInf), (PInf | NInf) => NaN
  end.

(** Comparisons: every comparison with not-a-number is false. *)
Definition fltb (x y : fnum) : bool :=
  match x, y with
  | NaN, _ | _, NaN => false
  | Fin a, Fin b => match a ?= b with Lt => true | _ => false end
  | NInf, NInf => false
  | NInf, _ => true
  | _, NInf => false
  | PInf, _ => false
  | Fin _, PInf => true
  end.

Definition fgtb (x y : fnum) : bool := fltb y x.

(** [Series.sum()] and [groupby(...).agg("sum")]: missing cells are skipped
    ([skipna=True]), the sum of no cells is 0. *)
Definition pd_sum (l : list fnum) : fnum :=
  fold_left fadd (filter (fun x => negb (is_nan x)) l) zero.

(** [np.where(cond, a, b)] on one row: both branches are already
    evaluated. *)
Definition np_where (c : bool) (a b : fnum) : fnum := if c then a else b.

End Num.
Import Num.


Local Open Scope string_scope.

(** ** The canonical record and the keys of a grouping *)

(** A calendar date of the proleptic Gregorian calendar, as [pandas] parses
    it; a missing date ([NaT]) is [None] where a date is read. *)
Record date : Type := mk_date { d_year : Z; d_month : Z; d_day : Z }.

(** Days since 1970-01-01. *)
Definition days_from_civil (d : date) : Z :=
  let y := if (d_month d <=? 2)%Z then (d_year d - 1)%Z else d_year d in
  let era := (y / 400)%Z in
  let yoe := (y - era * 400)%Z in
  let mp := if (2 <? d_month d)%Z then (d_month d - 3)%Z
            else (d_month d + 9)%Z in
  let doy := ((153 * mp + 2) / 5 + d_day d - 1)%Z in
  let doe := (yoe * 365 + yoe / 4 - yoe / 100 + doy)%Z in
  (era * 146097 + doe - 719468)%Z.

(** [Series.dt.day_name()]: the full English weekday name. *)
Definition day_name (d : date) : string :=
  match ((days_from_civil d + 3) mod 7)%Z with
  | 0%Z => "Monday"
  | 1%Z => "Tuesday"
  | 2%Z => "Wednesday"
  | 3%Z => "Thursday"
  | 4%Z => "Friday"
  | 5%Z => "Saturday"
  | _ => "Sunday"
  end.

(** One row of the cleaned table.  A categorical or date cell that is
    missing (NaN, NaT) is [None]; a numeric cell that is missing is [NaN]. *)
Record record : Type := mk_record {
  campaign_id : option string;
  reporting_start : option date;
  reporting_end : option date;
  impressions : fnum;
  clicks : fnum;
  spent : fnum;
  total_conversion : fnum;
  approved_conversion : fnum;
  age : option string;
  gender : option string
}.

(** The value of a grouping column: a label, or a calendar month
    ([Period] of frequency M). *)
Inductive key : Type :=
| KStr (s : string)
| KMonth (y m : Z).

Definition key_eq_dec (a b : key) : {a = b} + {a <> b}.
Proof.
  decide equality; first [ apply string_dec | apply Z.eq_dec ].
Defined.

Definition key_eqb (a b : key) : bool :=
  if key_eq_dec a b then true else false.

(** The order in which [groupby] (with its default [sort=True]) lists the
    keys of one column. *)
Definition key_leb (a b : key) : bool :=
  match a, b with
  | KStr s, KStr t =>
      match String.compare s t with Gt => false | _ => true end
  | KMonth y m, KMonth y' m' =>
      ((y <? y') || ((y =? y') && (m <=? m')))%Z
  | KStr _, KMonth _ _ => true
  | KMonth _ _, KStr _ => false
  end.

Fixpoint insert_key (k : key) (l : list key) : list key :=
  match l with
  | [] => [k]
  | h :: t => if key_leb k h then k :: l else h :: insert_key k t
  end.

Fixpoint sort_keys (l : list key) : list key :=
  match l with
  | [] => []
  | h :: t => insert_key h (sort_keys t)
  end.

(** ** feature_engineering.py *)

Module MarketingFeatureEngineer.

(** The five columns [create_kpi_features] appends. *)
Record kpis : Type := mk_kpis {
  ctr : fnum;
  conversion_rate : fnum;
  approved_conversion_rate : fnum;
  cost_per_acquisition : fnum;
  cpm : fnum
}.

(** The two columns [create_demographic_features] appends. *)
Record demographics : Type := mk_demographics {
  age_group : option string;
  demographic_segment : option string
}.

(** A row of the featured table. *)
Record featured : Type := mk_featured {
  base : record;
  kpi : kpis;
  demo : demographics
}.

(** [create_kpi_features], on one row. *)
Definition kpi_row (r : record) : kpis :=
  {| ctr :=
       np_where (fgtb (impressions r) zero)
                (fdiv (clicks r) (impressions r))
                zero;
     conversion_rate :=
       np_where (fgtb (clicks r) zero)
                (fdiv (total_conversion r) (clicks r))
                zero;
     approved_conversion_rate :=
       np_where (fgtb (total_conversion r) zero)
                (fdiv (approved_conversion r) (total_conversion r))
                zero;
     cost_per_acquisition :=
       np_where (fgtb (approved_conversion r) zero)
                (fdiv (spent r) (approved_conversion r))
                NaN;
     cpm :=
       np_where (fgtb (impressions r) zero)
                (fmul (fdiv (spent r) (impressions r)) (of_Z 1000))
                zero |}.

Definition create_kpi_features (df : list record) : list kpis :=
  map kpi_row df.

(** [+] on two object columns: a missing operand gives a missing result. *)
Definition str_add (a b : option string) : option string :=
  match a, b with
  | Some s, Some t => Some (s ++ t)
  | _, _ => None
  end.

(** [create_demographic_features], on one row. *)
Definition demographic_row (r : record) : demographics :=
  let age_group := age r in
  {| age_group := age_group;
     demographic_segment :=
       str_add (str_add (gender r) (Some "_")) age_group |}.

Definition create_demographic_features (df : list record)
  : list demographics :=
  map demographic_row df.

(** The featured table that [run_full_pipeline] saves: the cleaned columns,
    the KPI columns and the demographic columns.  (The calendar columns and
    the merged per-campaign and per-segment averages are not read by the ROI
    calculator and are left out.) *)
Definition run_full_pipeline (df : list record) : list featured :=
  map (fun r => mk_featured r (kpi_row r) (demographic_row r)) df.

End MarketingFeatureEngineer.

(** ** roi_calculation.py *)

Module MarketingROICalculator.
Import MarketingFeatureEngineer.

(** The columns of the featured table that the calculator reads. *)
Definition df_spent (r : featured) : fnum := spent (base r).
Definition df_impressions (r : featured) : fnum := impressions (base r).
Definition df_clicks (r : featured) : fnum := clicks (base r).
Definition df_approved_conversion (r : featured) : fnum :=
  approved_conversion (base r).

(** The grouping columns.  [month] and [day_of_week] are the two columns
    [calculate_time_roi] adds from [reporting_start]. *)
Inductive dimension : Type :=
| Dcampaign_id
| Dgender
| Dage_group
| Ddemographic_segment
| Dmonth
| Dday_of_week.

Definition column (d : dimension) (r : featured) : option key :=
  match d with
  | Dcampaign_id => option_map KStr (campaign_id (base r))
  | Dgender => option_map KStr (gender (base r))
  | Dage_group => option_map KStr (age_group (demo r))
  | Ddemographic_segment => option_map KStr (demographic_segment (demo r))
  | Dmonth =>
      option_map (fun d => KMonth (d_year d) (d_month d))
                 (reporting_start (base r))
  | Dday_of_week =>
      option_map (fun d => KStr (day_name d)) (reporting_start (base r))
  end.

(** *** groupby(...).agg(sum) *)

(** One row of the grouped sums. *)
Record sums : Type := mk_sums {
  s_key : key;
  s_spent : fnum;
  s_impressions : fnum;
  s_clicks : fnum;
  s_approved_conversion : fnum
}.

(** The keys a column holds, row by row; a row whose key is missing takes
    no part in the grouping ([dropna=True]). *)
Definition present_keys (col : featured -> option key) (df : list featured)
  : list key :=
  flat_map (fun r => match col r with Some k => [k] | None => [] end) df.

Definition group_keys (col : featured -> option key) (df : list featured)
  : list key :=
  sort_keys (nodup key_eq_dec (present_keys col df)).

Definition has_key (col : featured -> option key) (k : key) (r : featured)
  : bool :=
  match col r with Some k' => key_eqb k' k | None => false end.

Definition group_rows (col : featured -> option key) (df : list featured)
  (k : key) : list featured :=
  filter (has_key col k) df.

Definition groupby_sum (col : featured -> option key) (df : list featured)
  : list sums :=
  map (fun k =>
         let rows := group_rows col df k in
         {| s_key := k;
            s_spent := pd_sum (map df_spent rows);
            s_impressions := pd_sum (map df_impressions rows);
            s_clicks := pd_sum (map df_clicks rows);
            s_approved_conversion :=
              pd_sum (map df_approved_conversion rows) |})
      (group_keys col df).

(** *** calculate_overall_roi *)

Record overall : Type := mk_overall {
  total_spend : fnum;
  total_revenue : fnum;
  total_profit : fnum;
  o_roi : fnum;
  o_roas : fnum;
  o_cpa : fnum;
  o_ctr : fnum;
  o_conversion_rate : fnum
}.

Definition calculate_overall_roi (conversion_value : fnum)
  (df : list featured) : overall :=
  let total_spend := pd_sum (map df_spent df) in
  let total_impressions := pd_sum (map df_impressions df) in
  let total_clicks := pd_sum (map df_clicks df) in
  let total_conversions := pd_sum (map df_approved_conversion df) in
  let total_revenue := fmul total_conversions conversion_value in
  let roi := if fgtb total_spend zero
             then fdiv (fsub total_revenue total_spend) total_spend
             else zero in
  let roas := if fgtb total_spend zero
              then fdiv total_revenue total_spend
              else zero in
  let cpa := if fgtb total_conversions zero
             then fdiv total_spend total_conversions
             else NaN in
  let ctr := if fgtb total_impressions zero
             then fdiv total_clicks total_impressions
             else zero in
  let conversion_rate := if fgtb total_clicks zero
                         then fdiv total_conversions total_clicks
                         else zero in
  {| total_spend := total_spend;
     total_revenue := total_revenue;
     total_profit := fsub total_revenue total_spend;
     o_roi := roi;
     o_roas := roas;
     o_cpa := cpa;
     o_ctr := ctr;
     o_conversion_rate := conversion_rate |}.

(** *** calculate_campaign_roi *)

Record campaign_row : Type := mk_campaign_row {
  c_campaign_id : key;
  c_spent : fnum;
  c_impressions : fnum;
  c_clicks : fnum;
  c_approved_conversion : fnum;
  c_revenue : fnum;
  c_profit : fnum;
  c_roi : fnum;
  c_roas : fnum;
  c_cpa : fnum;
  c_ctr : fnum;
  c_conversion_rate : fnum
}.

Definition campaign_of_sums (conversion_value : fnum) (g : sums)
  : campaign_row :=
  let revenue := fmul (s_approved_conversion g) conversion_value in
  let profit := fsub revenue (s_spent g) in
  {| c_campaign_id := s_key g;
     c_spent := s_spent g;
     c_impressions := s_impressions g;
     c_clicks := s_clicks g;
     c_approved_conversion := s_approved_conversion g;
     c_revenue := revenue;
     c_profit := profit;
     c_roi := fdiv profit (s_spent g);
     c_roas := fdiv revenue (s_spent g);
     c_cpa := np_where (fgtb (s_approved_conversion g) zero)
                       (fdiv (s_spent g) (s_approved_conversion g))
                       NaN;
     c_ctr := fdiv (s_clicks g) (s_impressions g);
     c_conversion_rate :=
       np_where (fgtb (s_clicks g) zero)
                (fdiv (s_approved_conversion g) (s_clicks g))
                zero |}.

Definition calculate_campaign_roi (conversion_value : fnum)
  (df : list featured) : list campaign_row :=
  map (campaign_of_sums conversion_value)
      (groupby_sum (column Dcampaign_id) df).

(** The numeric columns of the campaign table, by name, in the order the
    code creates them. *)
Definition campaign_columns : list (string * (campaign_row -> fnum)) :=
  [ ("spent", c_spent); ("impressions", c_impressions);
    ("clicks", c_clicks); ("approved_conversion", c_approved_conversion);
    ("revenue", c_revenue); ("profit", c_profit); ("roi", c_roi);
    ("roas", c_roas); ("cpa", c_cpa); ("ctr", c_ctr);
    ("conversion_rate", c_conversion_rate) ].

(** *** _group_roi *)

Record group_row : Type := mk_group_row {
  g_key : key;
  g_spent : fnum;
  g_impressions : fnum;
  g_clicks : fnum;
  g_approved_conversion : fnum;
  g_revenue : fnum;
  g_profit : fnum;
  g_roi : fnum;
  g_roas : fnum;
  g_cpa : fnum;
  g_spend_share : fnum;
  g_conversion_share : fnum;
  g_efficiency_score : fnum
}.

(** One row of [_group_roi], given the sums of the two columns the shares
    are taken over. *)
Definition group_of_sums (conversion_value : fnum)
  (spent_sum conversion_sum : fnum) (g : sums) : group_row :=
  let revenue := fmul (s_approved_conversion g) conversion_value in
  let profit := fsub revenue (s_spent g) in
  let spend_share := fdiv (s_spent g) spent_sum in
  let conversion_share := fdiv (s_approved_conversion g) conversion_sum in
  {| g_key := s_key g;
     g_spent := s_spent g;
     g_impressions := s_impressions g;
     g_clicks := s_clicks g;
     g_approved_conversion := s_approved_conversion g;
     g_revenue := revenue;
     g_profit := profit;
     g_roi := fdiv profit (s_spent g);
     g_roas := fdiv revenue (s_spent g);
     g_cpa := np_where (fgtb (s_approved_conversion g) zero)
                       (fdiv (s_spent g) (s_approved_conversion g))
                       NaN;
     g_spend_share := spend_share;
     g_conversion_share := conversion_share;
     g_efficiency_score := fdiv conversion_share spend_share |}.

Definition _group_roi (conversion_value : fnum) (df : list featured)
  (group_col : dimension) : list group_row :=
  let grouped := groupby_sum (column group_col) df in
  map (group_of_sums conversion_value
         (pd_sum (map s_spent grouped))
         (pd_sum (map s_approved_conversion grouped)))
      grouped.

Definition group_columns : list (string * (group_row -> fnum)) :=
  [ ("spent", g_spent); ("impressions", g_impressions);
    ("clicks", g_clicks); ("approved_conversion", g_approved_conversion);
    ("revenue", g_revenue); ("profit", g_profit); ("roi", g_roi);
    ("roas", g_roas); ("cpa", g_cpa); ("spend_share", g_spend_share);
    ("conversion_share", g_conversion_share);
    ("efficiency_score", g_efficiency_score) ].

(** [table[name]] on one row: [None] when the table has no such column. *)
Definition get_column {R : Type} (columns : list (string * (R -> fnum)))
  (name : string) (r : R) : option fnum :=
  match find (fun c => String.eqb (fst c) name) columns with
  | Some c => Some (snd c r)
  | None => None
  end.

(** *** calculate_demographic_roi, calculate_time_roi *)

Definition calculate_demographic_roi (conversion_value : fnum)
  (df : list featured) : list (string * list group_row) :=
  map (fun c => (fst c, _group_roi conversion_value df (snd c)))
      [ ("gender", Dgender); ("age_group", Dage_group);
        ("demographic_segment", Ddemographic_segment) ].

Definition calculate_time_roi (conversion_value : fnum)
  (df : list featured) : list (string * list group_row) :=
  [ ("monthly", _group_roi conversion_value df Dmonth);
    ("day_of_week", _group_roi conversion_value df Dday_of_week) ].

(** *** assign_performance_tiers *)

Definition tier (roas : fnum) : string :=
  if fltb roas (of_Z 1) then "Loss Making"
  else if fltb roas (of_Z 2) then "Break Even"
  else if fltb roas (of_Z 5) then "Profitable"
  else "Highly Profitable".

Record tiered_row : Type := mk_tiered_row {
  metrics : campaign_row;
  performance_tier : string
}.

(** [campaign_df] is the table stored under ["campaign_metrics"]. *)
Definition assign_performance_tiers (campaign_df : list campaign_row)
  : list tiered_row :=
  map (fun r => mk_tiered_row r (tier (c_roas r))) campaign_df.

(** *** run *)

Record results : Type := mk_results {
  overall_metrics : overall;
  campaign_metrics : list tiered_row;
  demographic_metrics : list (string * list group_row);
  time_metrics : list (string * list group_row)
}.

Definition run (conversion_value : fnum) (df : list featured) : results :=
  {| overall_metrics := calculate_overall_roi conversion_value df;
     campaign_metrics :=
       assign_performance_tiers (calculate_campaign_roi conversion_value df);
     demographic_metrics := calculate_demographic_roi conversion_value df;
     time_metrics := calculate_time_roi conversion_value df |}.

End MarketingROICalculator.

(** ** The tables of the calculator, by dimension *)

Import MarketingFeatureEngineer MarketingROICalculator.

(** The table the calculator builds for a grouping dimension, each row as
    its key and its numeric columns by name: the campaign table for
    [campaign_id], the table of [_group_roi] for the five other
    dimensions. *)
Definition group_view (g : group_row) : key * (string -> option fnum) :=
  (g_key g, fun name => get_column group_columns name g).

Definition campaign_view (c : campaign_row)
  : key * (string -> option fnum) :=
  (c_campaign_id c, fun name => get_column campaign_columns name c).

Definition aggregate (cv : fnum) (df : list featured) (d : dimension)
  : list (key * (string -> option fnum)) :=
  match d with
  | Dcampaign_id => map campaign_view (calculate_campaign_roi cv df)
  | _ => map group_view (_group_roi cv df d)
  end.

(** The sums over the whole input, as one group. *)
Definition whole_input (df : list featured) : sums :=
  {| s_key := KStr "";
     s_spent := pd_sum (map df_spent df);
     s_impressions := pd_sum (map df_impressions df);
     s_clicks := pd_sum (map df_clicks df);
     s_approved_conversion := pd_sum (map df_approved_conversion df) |}.

(** ** Scenarios *)

(** A record all of whose counters are 0. *)
Definition zero_record : record :=
  {| campaign_id := Some "C1"; reporting_start := Some (mk_date 2017 8 17);
     reporting_end := Some (mk_date 2017 8 17);
     impressions := zero; clicks := zero; spent := zero;
     total_conversion := zero; approved_conversion := zero;
     age := Some "30-34"; gender := Some "M" |}.

Definition zero_featured : featured :=
  mk_featured zero_record (kpi_row zero_record) (demographic_row zero_record).

(** The two records of campaign C1 of the end-to-end scenario. *)
Definition male_25_34 : record :=
  {| campaign_id := Some "C1"; reporting_start := None;
     reporting_end := None;
     impressions := of_Z 1000; clicks := of_Z 50; spent := of_Z 10;
     total_conversion := of_Z 3; approved_conversion := of_Z 2;
     age := Some "25-34"; gender := Some "MALE" |}.

Definition female_30_34 : record :=
  {| campaign_id := Some "C1"; reporting_start := None;
     reporting_end := None;
     impressions := of_Z 0; clicks := of_Z 0; spent := of_Z 5;
     total_conversion := of_Z 0; approved_conversion := of_Z 0;
     age := Some "30-34"; gender := Some "FEMALE" |}.

Definition two_genders : list featured :=
  run_full_pipeline [male_25_34; female_30_34].


(** A record with clicks and no impression. *)
Definition clicks_without_impressions : record :=
  {| campaign_id := Some "C2"; reporting_start := None;
     reporting_end := None;
     impressions := of_Z 0; clicks := of_Z 5; spent := of_Z 1;
     total_conversion := of_Z 0; approved_conversion := of_Z 0;
     age := Some "30-34"; gender := Some "FEMALE" |}.

(** One record a day from Monday 2017-08-14 to Sunday 2017-08-20, each
    with spend 1. *)
Definition one_week : list featured :=
  run_full_pipeline
    (map (fun day =>
            {| campaign_id := Some "C1";
               reporting_start := Some (mk_date 2017 8 day);
               reporting_end := Some (mk_date 2017 8 day);
               impressions := of_Z 100; clicks := of_Z 10; spent := of_Z 1;
               total_conversion := of_Z 2; approved_conversion := of_Z 1;
               age := Some "30-34"; gender := Some "M" |})
         [14; 15; 16; 17; 18; 19; 20]%Z).

(** ** The results store and save_results *)

Module ResultStore.

(** The tables the calculator builds. *)
Inductive table : Type :=
| CampaignTable (t : list campaign_row)
| TieredTable (t : list tiered_row)
| GroupTable (t : list group_row).

(** A value held in a dictionary of results: a data frame, or a number (the
    entries of the overall metrics). *)
Inductive value : Type :=
| VTable (t : table)
| VNumber (x : fnum).

(** An entry of [self.results]: a data frame or a dictionary. *)
Inductive pyobj : Type :=
| ODataFrame (t : table)
| ODict (items : list (string * value)).

(** [self.results], a dictionary in insertion order. *)
Definition store : Type := list (string * pyobj).

(** [results[name] = obj]: an existing key keeps its place. *)
Fixpoint dict_set (name : string) (obj : pyobj) (st : store) : store :=
  match st with
  | [] => [(name, obj)]
  | (n, o) :: rest =>
      if String.eqb n name then (n, obj) :: rest
      else (n, o) :: dict_set name obj rest
  end.

Fixpoint dict_get (name : string) (st : store) : option pyobj :=
  match st with
  | [] => None
  | (n, o) :: rest => if String.eqb n name then Some o else dict_get name rest
  end.

Inductive exception : Type :=
| AttributeError
| KeyError
| FileNotFoundError
| FileExistsError
| PermissionError
| OSError.

(** The methods, as they update [self.results]. *)
Definition overall_items (m : overall) : list (string * value) :=
  [ ("total_spend", VNumber (total_spend m));
    ("total_revenue", VNumber (total_revenue m));
    ("total_profit", VNumber (total_profit m));
    ("roi", VNumber (o_roi m));
    ("roas", VNumber (o_roas m));
    ("cpa", VNumber (o_cpa m));
    ("ctr", VNumber (o_ctr m));
    ("conversion_rate", VNumber (o_conversion_rate m)) ].

Definition store_overall (cv : fnum) (df : list featured) (st : store)
  : store :=
  dict_set "overall_metrics"
           (ODict (overall_items (calculate_overall_roi cv df))) st.

Definition store_campaign (cv : fnum) (df : list featured) (st : store)
  : store :=
  dict_set "campaign_metrics"
           (ODataFrame (CampaignTable (calculate_campaign_roi cv df))) st.

Definition group_items (l : list (string * list group_row))
  : list (string * value) :=
  map (fun c => (fst c, VTable (GroupTable (snd c)))) l.

Definition store_demographic (cv : fnum) (df : list featured) (st : store)
  : store :=
  dict_set "demographic_metrics"
           (ODict (group_items (calculate_demographic_roi cv df))) st.

Definition store_time (cv : fnum) (df : list featured) (st : store)
  : store :=
  dict_set "time_metrics"
           (ODict (group_items (calculate_time_roi cv df))) st.

(** [assign_performance_tiers] reads the campaign table back from the
    store: a [KeyError] when it is not there.  (No method stores anything
    but a campaign table under that name; the last case is never reached
    from the methods.) *)
Definition store_tiers (st : store) : exception + store :=
  match dict_get "campaign_metrics" st with
  | Some (ODataFrame (CampaignTable t)) =>
      inr (dict_set "campaign_metrics"
                    (ODataFrame (TieredTable (assign_performance_tiers t)))
                    st)
  | Some (ODataFrame (TieredTable t)) =>
      inr (dict_set "campaign_metrics"
             (ODataFrame
                (TieredTable
                   (assign_performance_tiers (map metrics t))))
             st)
  | _ => inl KeyError
  end.

(** The files written so far, and the exception that stopped the writing,
    if any. *)
Definition outcome : Type := list (string * table) * option exception.

(** What the file system answers: [makedirs dir] is the exception that
    [os.makedirs(dir, exist_ok=True)] raises, if any ([FileNotFoundError]
    for the empty path, [FileExistsError] when the path is a file, ...);
    [to_csv path] is the exception that writing the file at [path] raises,
    if any. *)
Record file_system : Type := mk_file_system {
  makedirs : string -> option exception;
  to_csv : string -> option exception
}.

(** The inner loop of [save_results] over the items of a dictionary:
    [df.to_csv] on a number raises [AttributeError]. *)
Fixpoint save_items (fs : file_system) (prefix : string)
  (items : list (string * value)) : outcome :=
  match items with
  | [] => ([], None)
  | (sub_name, VTable t) :: rest =>
      let path := prefix ++ "_" ++ sub_name ++ ".csv" in
      match to_csv fs path with
      | Some e => ([], Some e)
      | None =>
          let (written, e) := save_items fs prefix rest in
          ((path, t) :: written, e)
      end
  | (_, VNumber _) :: _ => ([], Some AttributeError)
  end.

(** The loop of [save_results] over the entries: a data frame goes to
    [output_dir/name.csv], the items of a dictionary to
    [output_dir/name_sub_name.csv]. *)
Fixpoint save_entries (fs : file_system) (st : store) (output_dir : string)
  : outcome :=
  match st with
  | [] => ([], None)
  | (name, ODataFrame t) :: rest =>
      let path := output_dir ++ "/" ++ name ++ ".csv" in
      match to_csv fs path with
      | Some e => ([], Some e)
      | None =>
          let (written, e) := save_entries fs rest output_dir in
          ((path, t) :: written, e)
      end
  | (name, ODict items) :: rest =>
      match save_items fs (output_dir ++ "/" ++ name) items with
      | (written, Some e) => (written, Some e)
      | (written, None) =>
          let (written', e) := save_entries fs rest output_dir in
          (app written written', e)
      end
  end.

(** [save_results]: the directory is made first, then the entries are
    written. *)
Definition save_results (fs : file_system) (st : store)
  (output_dir : string) : outcome :=
  match makedirs fs output_dir with
  | Some e => ([], Some e)
  | None => save_entries fs st output_dir
  end.



(** The stores the four table methods build, in any order and number of
    calls, without [calculate_overall_roi]. *)
Inductive tables_only : store -> Prop :=
| tables_empty : tables_only []
| tables_campaign cv df st :
    tables_only st -> tables_only (store_campaign cv df st)
| tables_demographic cv df st :
    tables_only st -> tables_only (store_demographic cv df st)
| tables_time cv df st :
    tables_only st -> tables_only (store_time cv df st)
| tables_tiers st st' :
    tables_only st -> store_tiers st = inr st' -> tables_only st'.

(** The stores the five methods build. *)
Inductive built : store -> Prop :=
| built_empty : built []
| built_overall cv df st : built st -> built (store_overall cv df st)
| built_campaign cv df st : built st -> built (store_campaign cv df st)
| built_demographic cv df st :
    built st -> built (store_demographic cv df st)
| built_time cv df st : built st -> built (store_time cv df st)
| built_tiers st st' : built st -> store_tiers st = inr st' -> built st'.

(** The shape of the entries the table methods store. *)
Definition table_entry (e : string * pyobj) : Prop :=
  (fst e = "campaign_metrics"
   /\ ((exists t, snd e = ODataFrame (CampaignTable t))
       \/ (exists t, snd e = ODataFrame (TieredTable t))))
  \/ (fst e = "demographic_metrics"
      /\ exists l, snd e = ODict (group_items l)
                   /\ map fst l = ["gender"; "age_group";
                                   "demographic_segment"])
  \/ (fst e = "time_metrics"
      /\ exists l, snd e = ODict (group_items l)
                   /\ map fst l = ["monthly"; "day_of_week"]).

(** The shape of the entry [calculate_overall_roi] stores. *)
Definition overall_entry (e : string * pyobj) : Prop :=
  fst e = "overall_metrics"
  /\ exists m, snd e = ODict (overall_items m).

End ResultStore.

(** ** visualization.py: the tables it reads *)

Module MarketingVisualization.

Definition overall_metrics_csv (input_dir : string) : string :=
  input_dir ++ "/overall_metrics.csv".

Definition campaign_metrics_csv (input_dir : string) : string :=
  input_dir ++ "/campaign_metrics.csv".

Definition demographic_metrics_csv (input_dir segment : string) : string :=
  input_dir ++ "/demographic_metrics_" ++ segment ++ ".csv".

Definition time_metrics_monthly_csv (input_dir : string) : string :=
  input_dir ++ "/time_metrics_monthly.csv".

Definition time_metrics_day_of_week_csv (input_dir : string) : string :=
  input_dir ++ "/time_metrics_day_of_week.csv".

(** The files [run_all] reads, in the order of its plots. *)
Definition run_all_inputs (input_dir : string) : list string :=
  [ overall_metrics_csv input_dir;
    campaign_metrics_csv input_dir;
    campaign_metrics_csv input_dir;
    demographic_metrics_csv input_dir "gender";
    demographic_metrics_csv input_dir "age_group";
    demographic_metrics_csv input_dir "demographic_segment";
    time_metrics_monthly_csv input_dir;
    time_metrics_day_of_week_csv input_dir ].

End MarketingVisualization.

(** ** The order of the tiers *)

(** The place of a label in the order the classifier lists them, from
    Loss Making up. *)
Definition tier_rank (label : string) : nat :=
  if String.eqb label "Loss Making" then 0
  else if String.eqb label "Break Even" then 1
  else if String.eqb label "Profitable" then 2
  else 3.

(** The seven labels [day_name] can give. *)
Definition weekdays : list key :=
  map KStr ["Monday"; "Tuesday"; "Wednesday"; "Thursday"; "Friday";
            "Saturday"; "Sunday"].

(** ** Sums of numbers *)

(** A cell that is a number or missing: no infinity. *)
Definition number_or_missing (x : fnum) : Prop :=
  match x with PInf | NInf => False | _ => True end.

(** A cell that is a number not below 0, or missing. *)
Definition nonneg_or_missing (x : fnum) : Prop :=
  match x with Fin q => 0 <= q | NaN => True | _ => False end.

(** The number a cell adds to a sum that skips the missing cells. *)
Definition val (x : fnum) : Qc :=
  match x with Fin q => q | _ => 0 end.

Definition qsum (l : list Qc) : Qc := fold_right Qcplus 0 l.

(** The key of a row is present. *)
Definition key_present (col : featured -> option key) (r : featured)
  : bool :=
  match col r with Some _ => true | None => false end.

(** ** feature_engineering.py: the aggregated features *)

Module AggregatedFeatures.

(** [Series.mean()] and [groupby(...).agg("mean")]: the missing cells are
    skipped; the mean of no cell is missing. *)
Definition pd_mean (l : list fnum) : fnum :=
  match filter (fun x => negb (is_nan x)) l with
  | [] => NaN
  | present =>
      fdiv (fold_left fadd present zero)
           (of_Z (Z.of_nat (List.length present)))
  end.

(** [left.merge(right, on=key, how="left")], where [right] comes from a
    [groupby] and so has no missing key: every left row, in order, with
    each right row of its key, or with nothing when no right row has its
    key. *)
Definition merge_row {A B : Type} (lkey : A -> option key)
  (right : list (key * B)) (a : A) : list (A * option B) :=
  match lkey a with
  | None => [(a, None)]
  | Some k =>
      match filter (fun kb => key_eqb (fst kb) k) right with
      | [] => [(a, None)]
      | matches => map (fun kb => (a, Some (snd kb))) matches
      end
  end.

Definition merge_left {A B : Type} (lkey : A -> option key)
  (left : list A) (right : list (key * B)) : list (A * option B) :=
  flat_map (merge_row lkey right) left.

Record campaign_aggregates : Type := mk_campaign_aggregates {
  campaign_total_spend : fnum;
  campaign_avg_ctr : fnum;
  campaign_avg_cpa : fnum;
  campaign_total_conversions : fnum
}.

Record segment_aggregates : Type := mk_segment_aggregates {
  segment_avg_ctr : fnum;
  segment_avg_cpa : fnum;
  segment_total_spend : fnum
}.

(** The aggregates of one campaign: sums and means over its rows. *)
Definition campaign_aggregates_of (df : list featured) (k : key)
  : campaign_aggregates :=
  let rows := group_rows (column Dcampaign_id) df k in
  {| campaign_total_spend := pd_sum (map df_spent rows);
     campaign_avg_ctr := pd_mean (map (fun r => ctr (kpi r)) rows);
     campaign_avg_cpa :=
       pd_mean (map (fun r => cost_per_acquisition (kpi r)) rows);
     campaign_total_conversions :=
       pd_sum (map df_approved_conversion rows) |}.

(** [self.df.groupby("campaign_id").agg(...).reset_index()]. *)
Definition campaign_metrics_of (df : list featured)
  : list (key * campaign_aggregates) :=
  map (fun k => (k, campaign_aggregates_of df k))
      (group_keys (column Dcampaign_id) df).

(** The aggregates of one demographic segment, over the table after the
    first merge. *)
Definition segment_aggregates_of
  (df : list (featured * option campaign_aggregates)) (k : key)
  : segment_aggregates :=
  let rows :=
    filter (fun r => has_key (column Ddemographic_segment) k (fst r)) df in
  {| segment_avg_ctr := pd_mean (map (fun r => ctr (kpi (fst r))) rows);
     segment_avg_cpa :=
       pd_mean (map (fun r => cost_per_acquisition (kpi (fst r))) rows);
     segment_total_spend := pd_sum (map (fun r => df_spent (fst r)) rows) |}.

(** [self.df.groupby("demographic_segment").agg(...).reset_index()]. *)
Definition segment_metrics_of
  (df : list (featured * option campaign_aggregates))
  : list (key * segment_aggregates) :=
  map (fun k => (k, segment_aggregates_of df k))
      (group_keys (column Ddemographic_segment) (map fst df)).

(** [create_aggregated_features]: the two merges. *)
Definition create_aggregated_features (df : list featured)
  : list ((featured * option campaign_aggregates)
          * option segment_aggregates) :=
  let merged :=
    merge_left (column Dcampaign_id) df (campaign_metrics_of df) in
  merge_left (fun r => column Ddemographic_segment (fst r))
             merged (segment_metrics_of merged).

End AggregatedFeatures.

(** [True] when the text holds no underscore. *)
Fixpoint no_underscore (s : string) : bool :=
  match s with
  | EmptyString => true
  | String c rest =>
      if Ascii.eqb c "_"%char then false else no_underscore rest
  end.

(** ** data_cleaning.py *)

Module MarketingDataCleaner.

(** A cell of a numeric column as [read_csv] gives it: a number
    (not-a-number when the field is empty), or text when the column did
    not parse as numbers. *)
Inductive raw_cell : Type :=
| RNum (x : fnum)
| RText (s : string).

(** One row of the raw table.  The dates are still text; a missing text
    cell is [None]. *)
Record raw_record : Type := mk_raw_record {
  raw_campaign_id : option string;
  raw_reporting_start : option string;
  raw_reporting_end : option string;
  raw_impressions : raw_cell;
  raw_clicks : raw_cell;
  raw_spent : raw_cell;
  raw_total_conversion : raw_cell;
  raw_approved_conversion : raw_cell;
  raw_age : option string;
  raw_gender : option string
}.

(** The table after [clean_dates]. *)
Record dated_record : Type := mk_dated_record {
  source : raw_record;
  start_date : option date;
  end_date : option date;
  duration_days : option Z
}.

(** The table from [handle_missing_values] on: the canonical record and
    the campaign duration. *)
Record cleaning_row : Type := mk_cleaning_row {
  row : record;
  campaign_duration_days : option Z
}.

(** The cleaned table, with the click-through rate of
    [create_basic_derived_features]. *)
Record cleaned : Type := mk_cleaned {
  cleaning : cleaning_row;
  cleaned_ctr : fnum
}.

(** *** Text: str.upper and str.strip

    Text is taken as ASCII; a byte above 127 is left as it is. *)

Definition is_space (c : ascii) : bool :=
  let n := nat_of_ascii c in
  ((9 <=? n) && (n <=? 13) || (28 <=? n) && (n <=? 32))%nat.

Definition upper_char (c : ascii) : ascii :=
  let n := nat_of_ascii c in
  if ((97 <=? n) && (n <=? 122))%nat then ascii_of_nat (n - 32) else c.

Fixpoint upper (s : string) : string :=
  match s with
  | EmptyString => EmptyString
  | String c rest => String (upper_char c) (upper rest)
  end.

Fixpoint lstrip (s : string) : string :=
  match s with
  | EmptyString => EmptyString
  | String c rest => if is_space c then lstrip rest else s
  end.

Fixpoint rstrip (s : string) : string :=
  match s with
  | EmptyString => EmptyString
  | String c rest =>
      match rstrip rest with
      | EmptyString => if is_space c then EmptyString
                       else String c EmptyString
      | kept => String c kept
      end
  end.

Definition strip (s : string) : string := lstrip (rstrip s).

(** *** Equality of rows, for drop_duplicates *)

Definition fnum_eq_dec (x y : fnum) : {x = y} + {x <> y}.
Proof. decide equality. apply Qc_eq_dec. Defined.

Definition date_eq_dec (x y : date) : {x = y} + {x <> y}.
Proof. decide equality; apply Z.eq_dec. Defined.

Definition record_eq_dec (x y : record) : {x = y} + {x <> y}.
Proof.
  decide equality;
    first [ apply fnum_eq_dec
          | decide equality; first [ apply string_dec | apply date_eq_dec ] ].
Defined.

Definition cleaning_row_eq_dec (x y : cleaning_row) : {x = y} + {x <> y}.
Proof.
  decide equality;
    first [ apply record_eq_dec | decide equality; apply Z.eq_dec ].
Defined.

Definition row_eqb (x y : cleaning_row) : bool :=
  if cleaning_row_eq_dec x y then true else false.

Section Parsers.

(** What [pd.to_numeric] makes of a text cell (not-a-number when it does
    not parse) and what [pd.to_datetime] makes of a text cell ([None],
    not-a-time, when it does not parse), both with [errors="coerce"]. *)
Variable parse_number : string -> fnum.
Variable parse_date : string -> option date.

Definition to_numeric (c : raw_cell) : fnum :=
  match c with
  | RNum x => x
  | RText s => parse_number s
  end.

Definition to_datetime (c : option string) : option date :=
  match c with
  | Some s => parse_date s
  | None => None
  end.

(** [fillna(0)]. *)
Definition fillna_zero (x : fnum) : fnum := if is_nan x then zero else x.

(** [fillna("Unknown")]. *)
Definition fillna_unknown (c : option string) : option string :=
  match c with
  | Some s => Some s
  | None => Some "Unknown"
  end.

(** [clean_dates], on one row: the two dates parsed, and the days between
    them. *)
Definition clean_dates_row (r : raw_record) : dated_record :=
  let s := to_datetime (raw_reporting_start r) in
  let e := to_datetime (raw_reporting_end r) in
  {| source := r;
     start_date := s;
     end_date := e;
     duration_days :=
       match s, e with
       | Some ds, Some de => Some (days_from_civil de - days_from_civil ds)%Z
       | _, _ => None
       end |}.

Definition clean_dates (df : list raw_record) : list dated_record :=
  map clean_dates_row df.

(** [handle_missing_values], on one row. *)
Definition handle_missing_row (d : dated_record) : cleaning_row :=
  let r := source d in
  {| row :=
       {| campaign_id := raw_campaign_id r;
          reporting_start := start_date d;
          reporting_end := end_date d;
          impressions := fillna_zero (to_numeric (raw_impressions r));
          clicks := fillna_zero (to_numeric (raw_clicks r));
          spent := fillna_zero (to_numeric (raw_spent r));
          total_conversion :=
            fillna_zero (to_numeric (raw_total_conversion r));
          approved_conversion :=
            fillna_zero (to_numeric (raw_approved_conversion r));
          age := fillna_unknown (raw_age r);
          gender := fillna_unknown (raw_gender r) |};
     campaign_duration_days := duration_days d |}.

Definition handle_missing_values (df : list dated_record)
  : list cleaning_row :=
  map handle_missing_row df.

(** [df.loc[df[col] < 0, col] = 0]. *)
Definition clip_negative (x : fnum) : fnum :=
  if fltb x zero then zero else x.

(** [validate_numeric_columns], on one row. *)
Definition validate_row (c : cleaning_row) : cleaning_row :=
  let r := row c in
  {| row :=
       {| campaign_id := campaign_id r;
          reporting_start := reporting_start r;
          reporting_end := reporting_end r;
          impressions := clip_negative (impressions r);
          clicks := clip_negative (clicks r);
          spent := clip_negative (spent r);
          total_conversion := clip_negative (total_conversion r);
          approved_conversion := clip_negative (approved_conversion r);
          age := age r;
          gender := gender r |};
     campaign_duration_days := campaign_duration_days c |}.

Definition validate_numeric_columns (df : list cleaning_row)
  : list cleaning_row :=
  map validate_row df.

(** [drop_duplicates()]: the first of equal rows is kept. *)
Fixpoint drop_duplicates (df : list cleaning_row) : list cleaning_row :=
  match df with
  | [] => []
  | x :: rest =>
      x :: filter (fun y => negb (row_eqb x y)) (drop_duplicates rest)
  end.

Definition remove_duplicates (df : list cleaning_row) : list cleaning_row :=
  drop_duplicates df.

(** [clean_categorical_data], on one row: gender upper-cased then
    stripped, age stripped. *)
Definition clean_categorical_row (c : cleaning_row) : cleaning_row :=
  let r := row c in
  {| row :=
       {| campaign_id := campaign_id r;
          reporting_start := reporting_start r;
          reporting_end := reporting_end r;
          impressions := impressions r;
          clicks := clicks r;
          spent := spent r;
          total_conversion := total_conversion r;
          approved_conversion := approved_conversion r;
          age := option_map strip (age r);
          gender := option_map (fun g => strip (upper g)) (gender r) |};
     campaign_duration_days := campaign_duration_days c |}.

Definition clean_categorical_data (df : list cleaning_row)
  : list cleaning_row :=
  map clean_categorical_row df.

(** [create_basic_derived_features], on one row. *)
Definition derive_row (c : cleaning_row) : cleaned :=
  {| cleaning := c;
     cleaned_ctr :=
       np_where (fgtb (impressions (row c)) zero)
                (fdiv (clicks (row c)) (impressions (row c)))
                zero |}.

Definition create_basic_derived_features (df : list cleaning_row)
  : list cleaned :=
  map derive_row df.

(** [run_full_pipeline], from the loaded table to the table it saves. *)
Definition run_full_pipeline (df : list raw_record) : list cleaned :=
  create_basic_derived_features
    (clean_categorical_data
       (remove_duplicates
          (validate_numeric_columns
             (handle_missing_values (clean_dates df))))).

(** What the pipeline makes of one raw row. *)
Definition clean_one (r : raw_record) : cleaned :=
  derive_row
    (clean_categorical_row
       (validate_row (handle_missing_row (clean_dates_row r)))).

End Parsers.

(** The raw row with another gender. *)
Definition with_gender (r : raw_record) (g : option string) : raw_record :=
  {| raw_campaign_id := raw_campaign_id r;
     raw_reporting_start := raw_reporting_start r;
     raw_reporting_end := raw_reporting_end r;
     raw_impressions := raw_impressions r;
     raw_clicks := raw_clicks r;
     raw_spent := raw_spent r;
     raw_total_conversion := raw_total_conversion r;
     raw_approved_conversion := raw_approved_conversion r;
     raw_age := raw_age r;
     raw_gender := g |}.

(** A counter as the cleaner leaves it: a number not below 0, or plus
    infinity. *)
Definition sanitized (x : fnum) : Prop :=
  x = PInf \/ exists q, x = Fin q /\ 0 <= q.

(** The five counters of a record. *)
Definition counters (r : record) : list fnum :=
  [impressions r; clicks r; spent r; total_conversion r;
   approved_conversion r].

End MarketingDataCleaner.

(** A raw row with a negative spend, an unreadable click count and no
    gender, age or impressions. *)
Definition dirty_row : MarketingDataCleaner.raw_record :=
  {| MarketingDataCleaner.raw_campaign_id := Some "C1";
     MarketingDataCleaner.raw_reporting_start := Some "2017-08-17";
     MarketingDataCleaner.raw_reporting_end := Some "2017-08-18";
     MarketingDataCleaner.raw_impressions := MarketingDataCleaner.RNum NaN;
     MarketingDataCleaner.raw_clicks := MarketingDataCleaner.RText "n/a";
     MarketingDataCleaner.raw_spent :=
       MarketingDataCleaner.RNum (fneg (of_Z 3));
     MarketingDataCleaner.raw_total_conversion :=
       MarketingDataCleaner.RNum (of_Z 2);
     MarketingDataCleaner.raw_approved_conversion :=
       MarketingDataCleaner.RNum (of_Z 1);
     MarketingDataCleaner.raw_age := None;
     MarketingDataCleaner.raw_gender := None |}.

(** File systems for the scenarios: one where every directory can be made
    and every file written, one where the empty path cannot be made. *)
Definition fs_ok : ResultStore.file_system :=
  {| ResultStore.makedirs := fun _ => None;
     ResultStore.to_csv := fun _ => None |}.

Definition fs_no_empty_path : ResultStore.file_system :=
  {| ResultStore.makedirs :=
       fun dir => if String.eqb dir ""
                  then Some ResultStore.FileNotFoundError else None;
     ResultStore.to_csv := fun _ => None |}.

(** Parsers for the scenarios: no text reads as a number, no text reads as
    a date. *)
Definition no_number (_ : string) : fnum := NaN.
Definition no_date (_ : string) : option date := None.

(** * Properties *)

Local Open Scope Qc_scope.

(** ** Arithmetic of the cells *)

Ltac qc_eq :=
  vm_compute;
  first [ reflexivity
        | apply (f_equal Fin); apply Qc_is_canon; reflexivity ].

Ltac qc_neq :=
  let E := fresh "E" in
  intro E; apply (f_equal this) in E; vm_compute in E; discriminate E.

Example fdiv_probe :
  fdiv (of_Z 5) zero = PInf /\ fdiv zero zero = NaN
  /\ fltb NaN one = false /\ pd_sum [of_Z 1; NaN; of_Z 2] = of_Z 3.
Proof. repeat split; qc_eq. Qed.

Example day_name_probe :
  day_name (mk_date 1970 1 1) = "Thursday"
  /\ day_name (mk_date 2017 8 17) = "Thursday"
  /\ day_name (mk_date 2024 2 29) = "Thursday"
  /\ day_name (mk_date 2026 11 3) = "Tuesday"
  /\ sort_keys [KStr "b"; KStr "a"; KStr "c"] = [KStr "a"; KStr "b"; KStr "c"].
Proof. repeat split; reflexivity. Qed.

Section NumFacts.

Lemma fdiv_zero_undefined (x : fnum) : undefined (fdiv x zero).
Proof.
  destruct x as [a| | |]; simpl; trivial.
  destruct (sgn a); exact I.
Qed.

Lemma fdiv_nan_r (x : fnum) : fdiv x NaN = NaN.
Proof. destruct x; reflexivity. Qed.

Lemma undefined_not_zero (x : fnum) : undefined x -> x <> zero.
Proof. destruct x; simpl; intros H E; try discriminate; contradiction. Qed.

Lemma sgn_Eq (q : Qc) : sgn q = Eq <-> q = 0.
Proof. unfold sgn. symmetry. apply Qceq_alt. Qed.

(** Zero divided by anything is zero or not-a-number. *)
Lemma fdiv_zero_l (y : fnum) : fdiv zero y = zero \/ fdiv zero y = NaN.
Proof.
  destruct y as [b| | |]; try (now left); try (now right).
  unfold zero, of_Z, fdiv. fold (qz 0).
  destruct (sgn b) eqn:E.
  - now right.
  - left. f_equal. apply Qcmult_0_l.
  - left. f_equal. apply Qcmult_0_l.
Qed.

End NumFacts.

(** ** The KPI deriver *)

(** C1. For every row of every input table, [create_kpi_features] yields a
    row of KPIs (it never fails), in which a ratio whose denominator is 0
    is the number 0 (ctr and cpm for impressions, conversion_rate for
    clicks, approved_conversion_rate for total_conversion), except
    cost_per_acquisition, which is not-a-number when approved_conversion
    is 0. *)
Theorem kpi_zero_denominator (df : list record) (i : nat) (r : record) :
  nth_error df i = Some r ->
  exists k : kpis,
    nth_error (create_kpi_features df) i = Some k
    /\ (impressions r = zero -> ctr k = zero)
    /\ (clicks r = zero -> conversion_rate k = zero)
    /\ (total_conversion r = zero -> approved_conversion_rate k = zero)
    /\ (impressions r = zero -> cpm k = zero)
    /\ (approved_conversion r = zero -> cost_per_acquisition k = NaN).
Proof.
  intros Hr. exists (kpi_row r). split.
  - unfold create_kpi_features. now rewrite nth_error_map, Hr.
  - unfold kpi_row; simpl.
    repeat split; intros ->; reflexivity.
Qed.


Lemma kpi_zero_denominator_witness :
  exists k : kpis,
    nth_error (create_kpi_features [zero_record]) 0 = Some k
    /\ (impressions zero_record = zero -> ctr k = zero)
    /\ (clicks zero_record = zero -> conversion_rate k = zero)
    /\ (total_conversion zero_record = zero
        -> approved_conversion_rate k = zero)
    /\ (impressions zero_record = zero -> cpm k = zero)
    /\ (approved_conversion zero_record = zero
        -> cost_per_acquisition k = NaN).
Proof. apply (kpi_zero_denominator [zero_record] 0 zero_record). reflexivity. Defined.

Lemma append_assoc' (s t u : string) : (s ++ t) ++ u = s ++ t ++ u.
Proof.
  induction s as [|c s IH]; simpl; [reflexivity | now rewrite IH].
Qed.

(** C8. For every record whose gender and age are present, the
    demographic segment is the gender, an underscore and the age, joined;
    gender MALE with age 25-34 gives MALE_25-34. *)
Theorem demographic_segment_concat (r : record) (g a : string) :
  gender r = Some g -> age r = Some a ->
  demographic_segment (demographic_row r) = Some (g ++ "_" ++ a)
  /\ (g = "MALE" -> a = "25-34" ->
      demographic_segment (demographic_row r) = Some "MALE_25-34").
Proof.
  intros Hg Ha.
  assert (E : demographic_segment (demographic_row r) = Some (g ++ "_" ++ a)).
  { unfold demographic_row; simpl. rewrite Hg, Ha. simpl.
    f_equal. apply append_assoc'. }
  split; [exact E | intros -> ->; exact E].
Qed.


Lemma demographic_segment_concat_witness :
  demographic_segment (demographic_row male_25_34) = Some "MALE_25-34".
Proof.
  apply (demographic_segment_concat male_25_34 "MALE" "25-34");
    reflexivity.
Defined.

(** ** The tier classifier *)

Lemma fltb_Fin (a b : Qc) : fltb (Fin a) (Fin b) = true <-> a < b.
Proof.
  simpl. rewrite Qclt_alt. destruct (a ?= b); split; congruence.
Qed.

Lemma fltb_Fin_false (a b : Qc) : fltb (Fin a) (Fin b) = false <-> b <= a.
Proof.
  split.
  - intros H. apply Qcnot_lt_le. intros L. apply fltb_Fin in L. congruence.
  - intros H. destruct (fltb (Fin a) (Fin b)) eqn:E; [|reflexivity].
    apply fltb_Fin in E. exfalso. exact (Qcle_not_lt _ _ H E).
Qed.

(** C3. On every real ROAS the classifier returns a tier, by closed-open
    intervals: below 1 Loss Making, from 1 to below 2 Break Even, from 2 to
    below 5 Profitable, from 5 on Highly Profitable; so 1 is Break Even and
    5 is Highly Profitable. *)
Theorem tier_intervals (q : Qc) :
  (q < qz 1 -> tier (Fin q) = "Loss Making")
  /\ (qz 1 <= q < qz 2 -> tier (Fin q) = "Break Even")
  /\ (qz 2 <= q < qz 5 -> tier (Fin q) = "Profitable")
  /\ (qz 5 <= q -> tier (Fin q) = "Highly Profitable")
  /\ (q < qz 1 \/ qz 1 <= q < qz 2 \/ qz 2 <= q < qz 5 \/ qz 5 <= q)
  /\ tier (of_Z 1) = "Break Even"
  /\ tier (of_Z 5) = "Highly Profitable".
Proof.
  assert (L12 : qz 1 <= qz 2) by (unfold Qcle; simpl; discriminate).
  assert (L25 : qz 2 <= qz 5) by (unfold Qcle; simpl; discriminate).
  unfold tier, of_Z.
  split; [|split; [|split; [|split; [|split; [|split; reflexivity]]]]].
  - intros H. apply fltb_Fin in H. now rewrite H.
  - intros [H1 H2]. apply fltb_Fin_false in H1. apply fltb_Fin in H2.
    now rewrite H1, H2.
  - intros [H1 H2].
    assert (H0 : qz 1 <= q) by (eapply Qcle_trans; eassumption).
    apply fltb_Fin_false in H0, H1. apply fltb_Fin in H2.
    now rewrite H0, H1, H2.
  - intros H.
    assert (H2 : qz 2 <= q) by (eapply Qcle_trans; eassumption).
    assert (H1 : qz 1 <= q) by (eapply Qcle_trans; eassumption).
    apply fltb_Fin_false in H, H1, H2.
    now rewrite H, H1, H2.
  - destruct (Qclt_le_dec q (qz 1)); [now left|right].
    destruct (Qclt_le_dec q (qz 2)); [now left|right].
    destruct (Qclt_le_dec q (qz 5)); [now left|now right].
Qed.

Lemma tier_intervals_witness :
  tier (frac 3 2) = "Break Even" /\ tier (frac 1 2) = "Loss Making"
  /\ tier (of_Z 3) = "Profitable" /\ tier (of_Z 7) = "Highly Profitable".
Proof.
  split; [|split; [|split]].
  - refine (proj1 (proj2 (tier_intervals (Q2Qc (3 # 2)))) _).
    split; unfold Qcle, Qclt; simpl; [discriminate | reflexivity].
  - refine (proj1 (tier_intervals (Q2Qc (1 # 2))) _). reflexivity.
  - refine (proj1 (proj2 (proj2 (tier_intervals (qz 3)))) _).
    split; unfold Qcle, Qclt; simpl; [discriminate | reflexivity].
  - refine (proj1 (proj2 (proj2 (proj2 (tier_intervals (qz 7))))) _).
    unfold Qcle; simpl; discriminate.
Defined.

(** ** Grouping *)

Section Grouping.

Variable col : featured -> option key.

Lemma insert_key_perm (k : key) (l : list key) :
  Permutation (insert_key k l) (k :: l).
Proof.
  induction l as [|h t IH]; simpl.
  - apply Permutation_refl.
  - destruct (key_leb k h).
    + apply Permutation_refl.
    + eapply perm_trans; [apply perm_skip, IH | apply perm_swap].
Qed.

Lemma sort_keys_perm (l : list key) : Permutation (sort_keys l) l.
Proof.
  induction l as [|h t IH]; simpl.
  - apply perm_nil.
  - eapply perm_trans; [apply insert_key_perm | apply perm_skip, IH].
Qed.

Lemma present_keys_In (df : list featured) (k : key) :
  In k (present_keys col df) <-> exists r, In r df /\ col r = Some k.
Proof.
  unfold present_keys. rewrite in_flat_map. split.
  - intros [r [Hr Hk]]. exists r. split; [exact Hr|].
    destruct (col r) as [k'|]; simpl in Hk; [|contradiction].
    destruct Hk as [->|[]]. reflexivity.
  - intros [r [Hr Hk]]. exists r. split; [exact Hr|].
    rewrite Hk. now left.
Qed.

Lemma group_keys_In (df : list featured) (k : key) :
  In k (group_keys col df) <-> exists r, In r df /\ col r = Some k.
Proof.
  unfold group_keys. rewrite <- present_keys_In. split; intros H.
  - apply (Permutation_in _ (sort_keys_perm _)) in H.
    now apply nodup_In in H.
  - apply (Permutation_in _ (Permutation_sym (sort_keys_perm _))).
    now apply nodup_In.
Qed.

Lemma group_keys_NoDup (df : list featured) : NoDup (group_keys col df).
Proof.
  unfold group_keys.
  eapply Permutation_NoDup; [apply Permutation_sym, sort_keys_perm|].
  apply NoDup_nodup.
Qed.

Lemma groupby_sum_keys (df : list featured) :
  map s_key (groupby_sum col df) = group_keys col df.
Proof.
  unfold groupby_sum. rewrite map_map. simpl. apply map_id.
Qed.

(** Each row of the grouped table holds the sums over the rows of its
    key. *)
Lemma groupby_sum_In (df : list featured) (g : sums) :
  In g (groupby_sum col df) ->
  In (s_key g) (group_keys col df)
  /\ s_spent g = pd_sum (map df_spent (group_rows col df (s_key g)))
  /\ s_approved_conversion g =
       pd_sum (map df_approved_conversion (group_rows col df (s_key g))).
Proof.
  unfold groupby_sum. rewrite in_map_iff. intros [k [<- Hk]]. simpl. auto.
Qed.

End Grouping.

(** ** Cost per acquisition *)

Lemma group_roi_In (cv : fnum) (df : list featured) (d : dimension)
  (g : group_row) :
  In g (_group_roi cv df d) ->
  exists s,
    In s (groupby_sum (column d) df)
    /\ g = group_of_sums cv
             (pd_sum (map s_spent (groupby_sum (column d) df)))
             (pd_sum (map s_approved_conversion
                          (groupby_sum (column d) df))) s.
Proof.
  unfold _group_roi. rewrite in_map_iff. intros [s [<- Hs]]. eauto.
Qed.

Lemma campaign_roi_In (cv : fnum) (df : list featured) (c : campaign_row) :
  In c (calculate_campaign_roi cv df) ->
  exists s,
    In s (groupby_sum (column Dcampaign_id) df)
    /\ c = campaign_of_sums cv s.
Proof.
  unfold calculate_campaign_roi. rewrite in_map_iff.
  intros [s [<- Hs]]. eauto.
Qed.

(** C4. In every table of [_group_roi], in the campaign table and in the
    per-record KPIs, a row whose (summed) approved_conversion is 0 has
    not-a-number as its cost per acquisition: not 0, and a value is always
    produced. *)
Theorem cpa_nan_without_conversions (cv : fnum) (df : list featured) :
  (forall (d : dimension) (g : group_row),
      In g (_group_roi cv df d) ->
      g_approved_conversion g = zero ->
      g_cpa g = NaN /\ g_cpa g <> zero)
  /\ (forall c : campaign_row,
         In c (calculate_campaign_roi cv df) ->
         c_approved_conversion c = zero ->
         c_cpa c = NaN /\ c_cpa c <> zero)
  /\ (forall r : record,
         approved_conversion r = zero ->
         cost_per_acquisition (kpi_row r) = NaN
         /\ cost_per_acquisition (kpi_row r) <> zero).
Proof.
  split; [|split].
  - intros d g Hg Hz. apply group_roi_In in Hg. destruct Hg as [s [_ ->]].
    simpl in *. rewrite Hz. simpl. split; [reflexivity | discriminate].
  - intros c Hc Hz. apply campaign_roi_In in Hc. destruct Hc as [s [_ ->]].
    simpl in *. rewrite Hz. simpl. split; [reflexivity | discriminate].
  - intros r Hz. simpl. rewrite Hz. simpl. split; [reflexivity | discriminate].
Qed.


Lemma cpa_nan_without_conversions_witness :
  (exists g, In g (_group_roi (of_Z 100) [zero_featured] Dgender)
             /\ g_approved_conversion g = zero /\ g_cpa g = NaN)
  /\ (exists c, In c (calculate_campaign_roi (of_Z 100) [zero_featured])
                /\ c_approved_conversion c = zero /\ c_cpa c = NaN)
  /\ cost_per_acquisition (kpi_row zero_record) = NaN.
Proof.
  pose proof (cpa_nan_without_conversions (of_Z 100) [zero_featured])
    as [Hg [Hc Hr]].
  split; [|split].
  - eexists.
    assert (Hin : In (hd (group_of_sums zero zero zero
                            (mk_sums (KStr "") zero zero zero zero))
                         (_group_roi (of_Z 100) [zero_featured] Dgender))
                     (_group_roi (of_Z 100) [zero_featured] Dgender))
      by (left; reflexivity).
    split; [exact Hin|]. split; [reflexivity|].
    apply (Hg Dgender _ Hin). reflexivity.
  - eexists.
    assert (Hin : In (hd (campaign_of_sums zero
                            (mk_sums (KStr "") zero zero zero zero))
                         (calculate_campaign_roi (of_Z 100) [zero_featured]))
                     (calculate_campaign_roi (of_Z 100) [zero_featured]))
      by (left; reflexivity).
    split; [exact Hin|]. split; [reflexivity|].
    apply (Hc _ Hin). reflexivity.
  - apply Hr. reflexivity.
Defined.

(** ** Shares *)

Section Shares.



Variable t : Qc.
Hypothesis t_nonzero : t <> 0.

Lemma fdiv_Fin_nonzero (b : Qc) : fdiv (Fin b) (Fin t) = Fin (b / t).
Proof.
  simpl. destruct (sgn t) eqn:E; try reflexivity.
  apply sgn_Eq in E. contradiction.
Qed.




End Shares.

Lemma group_roi_spent_column (cv : fnum) (df : list featured) (d : dimension) :
  map g_spent (_group_roi cv df d)
  = map s_spent (groupby_sum (column d) df).
Proof. unfold _group_roi. rewrite map_map. reflexivity. Qed.

Lemma group_roi_conversion_column (cv : fnum) (df : list featured)
  (d : dimension) :
  map g_approved_conversion (_group_roi cv df d)
  = map s_approved_conversion (groupby_sum (column d) df).
Proof. unfold _group_roi. rewrite map_map. reflexivity. Qed.


(** ** Exhaustive grouping and zero-spend groups *)


Lemma group_roi_keys (cv : fnum) (df : list featured) (d : dimension) :
  map fst (map group_view (_group_roi cv df d)) = group_keys (column d) df.
Proof.
  unfold _group_roi. rewrite !map_map. simpl.
  rewrite <- (groupby_sum_keys (column d) df). reflexivity.
Qed.

Lemma campaign_roi_keys (cv : fnum) (df : list featured) :
  map fst (map campaign_view (calculate_campaign_roi cv df))
  = group_keys (column Dcampaign_id) df.
Proof.
  unfold calculate_campaign_roi. rewrite !map_map. simpl.
  rewrite <- (groupby_sum_keys (column Dcampaign_id) df). reflexivity.
Qed.

Lemma aggregate_spent (cv : fnum) (df : list featured) (d : dimension)
  (row : key * (string -> option fnum)) :
  In row (aggregate cv df d) ->
  snd row "spent"
  = Some (pd_sum (map df_spent (group_rows (column d) df (fst row)))).
Proof.
  intros Hrow.
  assert (H : exists s, In s (groupby_sum (column d) df)
                        /\ fst row = s_key s
                        /\ snd row "spent" = Some (s_spent s)).
  { destruct d; cbn [aggregate] in Hrow; apply in_map_iff in Hrow;
      destruct Hrow as [g [<- Hg]];
      first [ apply campaign_roi_In in Hg | apply group_roi_In in Hg ];
      destruct Hg as [s [Hs ->]]; exists s; repeat split; assumption. }
  destruct H as [s [Hs [-> ->]]].
  apply groupby_sum_In in Hs. destruct Hs as [_ [-> _]]. reflexivity.
Qed.

Lemma aggregate_keys (cv : fnum) (df : list featured) (d : dimension) :
  map fst (aggregate cv df d) = group_keys (column d) df.
Proof.
  destruct d; first [ apply campaign_roi_keys | apply group_roi_keys ].
Qed.

Lemma group_zero_spend (cv ts tc : fnum) (s : sums) :
  s_spent s = zero ->
  undefined (g_roi (group_of_sums cv ts tc s))
  /\ undefined (g_roas (group_of_sums cv ts tc s))
  /\ undefined (g_efficiency_score (group_of_sums cv ts tc s)).
Proof.
  intros Hz. cbn [group_of_sums g_roi g_roas g_efficiency_score].
  rewrite Hz. repeat split; try apply fdiv_zero_undefined.
  destruct (fdiv_zero_l ts) as [-> | ->].
  - apply fdiv_zero_undefined.
  - rewrite fdiv_nan_r. exact I.
Qed.

Lemma campaign_zero_spend (cv : fnum) (s : sums) :
  s_spent s = zero ->
  undefined (c_roi (campaign_of_sums cv s))
  /\ undefined (c_roas (campaign_of_sums cv s)).
Proof.
  intros Hz. cbn [campaign_of_sums c_roi c_roas].
  rewrite Hz. split; apply fdiv_zero_undefined.
Qed.

Lemma group_view_zero_spend (cv : fnum) (df : list featured) (d : dimension)
  (row : key * (string -> option fnum)) :
  In row (map group_view (_group_roi cv df d)) ->
  snd row "spent" = Some zero ->
  (exists v, snd row "roi" = Some v /\ undefined v)
  /\ (exists v, snd row "roas" = Some v /\ undefined v)
  /\ (exists v, snd row "efficiency_score" = Some v /\ undefined v).
Proof.
  rewrite in_map_iff. intros [g [<- Hg]] Hz.
  apply group_roi_In in Hg. destruct Hg as [s [_ ->]].
  assert (Hs : s_spent s = zero) by (now injection Hz).
  destruct (group_zero_spend cv
              (pd_sum (map s_spent (groupby_sum (column d) df)))
              (pd_sum (map s_approved_conversion
                           (groupby_sum (column d) df))) s Hs)
    as [H1 [H2 H3]].
  split; [|split]; eexists; (split; [reflexivity|assumption]).
Qed.

Lemma aggregate_share_columns (cv : fnum) (df : list featured)
  (d : dimension) (row : key * (string -> option fnum)) :
  In row (aggregate cv df d) ->
  (d = Dcampaign_id ->
   snd row "spend_share" = None
   /\ snd row "conversion_share" = None
   /\ snd row "efficiency_score" = None)
  /\ (d <> Dcampaign_id ->
      exists a b c,
        snd row "spend_share" = Some a
        /\ snd row "conversion_share" = Some b
        /\ snd row "efficiency_score" = Some c).
Proof.
  intros Hrow.
  destruct d; cbn [aggregate] in Hrow; apply in_map_iff in Hrow;
    destruct Hrow as [g [<- _]];
    (split; [intros E; try discriminate E | intros N; try contradiction]).
  - repeat split; reflexivity.
  - do 3 eexists. repeat split; reflexivity.
  - do 3 eexists. repeat split; reflexivity.
  - do 3 eexists. repeat split; reflexivity.
  - do 3 eexists. repeat split; reflexivity.
  - do 3 eexists. repeat split; reflexivity.
Qed.

(** C6, as the code has it. For every table and every grouping dimension,
    the keys of the output rows are the distinct keys present in the
    input, each once; a row whose summed spend is 0 is in the table like
    any other and its roi and roas are no numbers (not-a-number or an
    infinity); its efficiency_score is no number either in the tables of
    [_group_roi].  The spend of a row is the sum of the spend of the input
    rows of its key.  Every row of a [_group_roi] table has the columns
    spend_share, conversion_share and efficiency_score, and no row of the
    campaign table has any of the three. *)
Theorem aggregation_exhaustive (cv : fnum) (df : list featured)
  (d : dimension) :
  NoDup (map fst (aggregate cv df d))
  /\ (forall k : key,
         In k (map fst (aggregate cv df d))
         <-> exists r, In r df /\ column d r = Some k)
  /\ (forall row : key * (string -> option fnum),
         In row (aggregate cv df d) ->
         snd row "spent" = Some zero ->
         (exists v, snd row "roi" = Some v /\ undefined v)
         /\ (exists v, snd row "roas" = Some v /\ undefined v)
         /\ (d <> Dcampaign_id ->
             exists v, snd row "efficiency_score" = Some v /\ undefined v)
         /\ (d = Dcampaign_id -> snd row "efficiency_score" = None))
  /\ (forall row : key * (string -> option fnum),
         In row (aggregate cv df d) ->
         snd row "spent"
         = Some (pd_sum (map df_spent
                             (group_rows (column d) df (fst row)))))
  /\ (forall row : key * (string -> option fnum),
         In row (aggregate cv df d) ->
         (d = Dcampaign_id ->
          snd row "spend_share" = None
          /\ snd row "conversion_share" = None
          /\ snd row "efficiency_score" = None)
         /\ (d <> Dcampaign_id ->
             exists a b c,
               snd row "spend_share" = Some a
               /\ snd row "conversion_share" = Some b
               /\ snd row "efficiency_score" = Some c)).
Proof.
  rewrite aggregate_keys.
  split; [apply group_keys_NoDup|].
  split; [intros k; apply group_keys_In|].
  split; [|split; [apply aggregate_spent | apply aggregate_share_columns]].
  intros row Hrow Hz.
  destruct d;
    try (destruct (group_view_zero_spend cv df _ row Hrow Hz)
           as [H1 [H2 H3]];
         split; [exact H1 | split; [exact H2 | split;
           [intros _; exact H3 | intros E; discriminate E]]]).
  cbn [aggregate] in Hrow. apply in_map_iff in Hrow.
  destruct Hrow as [c [<- Hc]].
  apply campaign_roi_In in Hc. destruct Hc as [s [_ ->]].
  assert (Hs : s_spent s = zero) by (now injection Hz).
  destruct (campaign_zero_spend cv s Hs) as [H1 H2].
  split; [eexists; split; [reflexivity|assumption]|].
  split; [eexists; split; [reflexivity|assumption]|].
  split; [intros H; contradiction | reflexivity].
Qed.

Lemma aggregation_exhaustive_witness :
  exists row,
    In row (aggregate (of_Z 100) [zero_featured] Dgender)
    /\ snd row "spent" = Some zero
    /\ exists v, snd row "efficiency_score" = Some v /\ undefined v.
Proof.
  pose proof (aggregation_exhaustive (of_Z 100) [zero_featured] Dgender)
    as [_ [_ [H _]]].
  eexists.
  assert (Hin : In (hd (KStr "", fun _ => None)
                       (aggregate (of_Z 100) [zero_featured] Dgender))
                   (aggregate (of_Z 100) [zero_featured] Dgender))
    by (left; reflexivity).
  split; [exact Hin|]. split; [reflexivity|].
  destruct (H _ Hin eq_refl) as [_ [_ [H3 _]]].
  apply H3. discriminate.
Defined.

(** C6, as stated, fails on the campaign table: the campaign of a single
    record with no spend and no approved conversion is in the table, with
    spend 0, and the table gives it no efficiency_score at all. *)
Lemma campaign_table_without_efficiency_score :
  exists row,
    In row (aggregate (of_Z 100) [zero_featured] Dcampaign_id)
    /\ snd row "spent" = Some zero
    /\ ~ (exists v, snd row "efficiency_score" = Some v /\ undefined v).
Proof.
  eexists. split; [left; reflexivity|]. split; [reflexivity|].
  intros [v [H _]]. discriminate H.
Qed.



(** Seven single-record days grouped by day of week: seven rows, whose
    spend shares sum to 1. *)
Example week_by_day_of_week :
  map g_key (_group_roi (of_Z 100) one_week Dday_of_week)
  = [KStr "Friday"; KStr "Monday"; KStr "Saturday"; KStr "Sunday";
     KStr "Thursday"; KStr "Tuesday"; KStr "Wednesday"]
  /\ pd_sum (map g_spend_share (_group_roi (of_Z 100) one_week Dday_of_week))
     = one.
Proof. split; qc_eq. Qed.

(** ** Overall metrics *)

(** C7, as the code has it. The overall metrics are computed from the sums
    of the counters over the whole input.  cpa and conversion_rate follow
    the campaign-level formulas; roi and roas follow them when the total
    spend is above 0 and are the number 0 otherwise, in particular when the
    total spend is 0; ctr follows the campaign-level quotient when the
    total of impressions is above 0 and is 0 otherwise; cpa is
    not-a-number when the total of approved conversions is 0. *)
Theorem overall_metrics_formulas (cv : fnum) (df : list featured) :
  let m := calculate_overall_roi cv df in
  let c := campaign_of_sums cv (whole_input df) in
  total_spend m = pd_sum (map df_spent df)
  /\ total_revenue m = c_revenue c
  /\ total_profit m = c_profit c
  /\ o_cpa m = c_cpa c
  /\ o_conversion_rate m = c_conversion_rate c
  /\ (fgtb (total_spend m) zero = true ->
      o_roi m = c_roi c /\ o_roas m = c_roas c)
  /\ (fgtb (total_spend m) zero = false ->
      o_roi m = zero /\ o_roas m = zero)
  /\ (total_spend m = zero -> o_roi m = zero /\ o_roas m = zero)
  /\ (fgtb (c_impressions c) zero = true -> o_ctr m = c_ctr c)
  /\ (fgtb (c_impressions c) zero = false -> o_ctr m = zero)
  /\ (c_approved_conversion c = zero -> o_cpa m = NaN).
Proof.
  cbn zeta.
  unfold calculate_overall_roi, campaign_of_sums, whole_input, np_where.
  cbn [total_spend total_revenue total_profit o_roi o_roas o_cpa o_ctr
       o_conversion_rate c_revenue c_profit c_roi c_roas c_cpa c_ctr
       c_conversion_rate c_impressions c_approved_conversion
       s_spent s_impressions s_clicks s_approved_conversion].
  repeat match goal with |- _ /\ _ => split end; try reflexivity.
  - intros ->. split; reflexivity.
  - intros ->. split; reflexivity.
  - intros ->. split; reflexivity.
  - intros ->. reflexivity.
  - intros ->. reflexivity.
  - intros ->. reflexivity.
Qed.

Lemma overall_metrics_formulas_witness :
  o_roi (calculate_overall_roi (of_Z 100) [zero_featured]) = zero
  /\ o_roas (calculate_overall_roi (of_Z 100) [zero_featured]) = zero
  /\ o_cpa (calculate_overall_roi (of_Z 100) [zero_featured]) = NaN
  /\ o_roi (calculate_overall_roi (of_Z 100) two_genders)
     = c_roi (campaign_of_sums (of_Z 100) (whole_input two_genders)).
Proof.
  pose proof (overall_metrics_formulas (of_Z 100) [zero_featured])
    as [_ [_ [_ [_ [_ [_ [_ [Hz [_ [_ Hc]]]]]]]]]].
  pose proof (overall_metrics_formulas (of_Z 100) two_genders)
    as [_ [_ [_ [_ [_ [Hp _]]]]]].
  split; [apply Hz; reflexivity|].
  split; [apply Hz; reflexivity|].
  split; [apply Hc; reflexivity|].
  apply Hp. reflexivity.
Defined.

(** C7, as stated, fails: for a single record with no spend the total
    spend is 0 and the overall roi and roas are the number 0, not an
    undefined marker. *)
Lemma overall_roi_zero_spend_is_zero :
  let m := calculate_overall_roi (of_Z 100) [zero_featured] in
  total_spend m = zero
  /\ o_roi m = zero /\ o_roas m = zero
  /\ ~ undefined (o_roi m) /\ ~ undefined (o_roas m).
Proof.
  cbn zeta. repeat split; try reflexivity; intros H; exact H.
Qed.

(** ** Undefined ROAS in the tier classifier *)

(** C2 on the code. The classifier has four outcomes and no other; a ROAS
    that is not-a-number or infinite falls through the three comparisons
    to Highly Profitable, and so does the campaign of a single record with
    no spend and no approved conversion, whose ROAS is not-a-number. *)
Theorem tier_of_undefined_roas :
  (forall x : fnum,
      In (tier x)
         ["Loss Making"; "Break Even"; "Profitable"; "Highly Profitable"])
  /\ tier NaN = "Highly Profitable"
  /\ tier PInf = "Highly Profitable"
  /\ exists c,
      calculate_campaign_roi (of_Z 100) [zero_featured] = [c]
      /\ c_spent c = zero
      /\ c_roas c = NaN
      /\ assign_performance_tiers [c]
         = [mk_tiered_row c "Highly Profitable"].
Proof.
  split; [|split; [|split]]; try reflexivity.
  - intros x. unfold tier.
    destruct (fltb x (of_Z 1)); [now left|].
    destruct (fltb x (of_Z 2)); [now right; left|].
    destruct (fltb x (of_Z 5)); [now right; right; left|].
    now right; right; right; left.
  - eexists. split; [reflexivity|]. repeat split; reflexivity.
Qed.

(** ** The end-to-end scenario *)

(** C9. Two records of campaign C1 with impressions 1000 and 0, clicks 50
    and 0, spend 10 and 5, approved conversions 2 and 0, at conversion
    value 100: the campaign table has the one row of C1, with spend 15,
    2 approved conversions, revenue 200, profit 185, roi 185/15,
    roas 200/15, cpa 7.5 and ctr 0.05, and its tier is Highly
    Profitable. *)
Theorem campaign_scenario (r1 r2 : featured) :
  campaign_id (base r1) = Some "C1" ->
  campaign_id (base r2) = Some "C1" ->
  impressions (base r1) = of_Z 1000 -> impressions (base r2) = of_Z 0 ->
  clicks (base r1) = of_Z 50 -> clicks (base r2) = of_Z 0 ->
  spent (base r1) = of_Z 10 -> spent (base r2) = of_Z 5 ->
  approved_conversion (base r1) = of_Z 2 ->
  approved_conversion (base r2) = of_Z 0 ->
  exists c : campaign_row,
    calculate_campaign_roi (of_Z 100) [r1; r2] = [c]
    /\ c_campaign_id c = KStr "C1"
    /\ c_spent c = of_Z 15
    /\ c_approved_conversion c = of_Z 2
    /\ c_revenue c = of_Z 200
    /\ c_profit c = of_Z 185
    /\ c_roi c = frac 185 15
    /\ c_roas c = frac 200 15
    /\ c_cpa c = frac 75 10
    /\ c_ctr c = frac 5 100
    /\ assign_performance_tiers [c]
       = [mk_tiered_row c "Highly Profitable"].
Proof.
  destruct r1 as [[id1 s1 e1 i1 k1 p1 t1 a1 ag1 g1] kp1 dm1].
  destruct r2 as [[id2 s2 e2 i2 k2 p2 t2 a2 ag2 g2] kp2 dm2].
  cbn [base campaign_id impressions clicks spent approved_conversion].
  intros -> -> -> -> -> -> -> -> -> ->.
  eexists. split; [reflexivity|].
  repeat match goal with |- _ /\ _ => split end; try qc_eq.
Qed.

Lemma campaign_scenario_witness :
  exists c : campaign_row,
    calculate_campaign_roi (of_Z 100) two_genders = [c]
    /\ c_roas c = frac 200 15
    /\ assign_performance_tiers [c]
       = [mk_tiered_row c "Highly Profitable"].
Proof.
  destruct (campaign_scenario
              (mk_featured male_25_34 (kpi_row male_25_34)
                           (demographic_row male_25_34))
              (mk_featured female_30_34 (kpi_row female_30_34)
                           (demographic_row female_30_34))
              eq_refl eq_refl eq_refl eq_refl eq_refl
              eq_refl eq_refl eq_refl eq_refl eq_refl)
    as [c [H1 [_ [_ [_ [_ [_ [_ [H2 [_ [_ H3]]]]]]]]]]].
  exists c. split; [exact H1|]. split; [exact H2 | exact H3].
Defined.

(** ** Campaign-level click-through rate *)

(** C10, as the code has it. The campaign-level ctr is the unguarded
    quotient of the summed clicks by the summed impressions; for a campaign
    whose summed impressions is 0 it is no number and in particular not 0:
    not-a-number when the summed clicks is 0 too, plus infinity when the
    summed clicks is above 0.  The per-record ctr of a record with no
    impression is 0. *)
Theorem campaign_ctr_unguarded (cv : fnum) (df : list featured)
  (c : campaign_row) :
  In c (calculate_campaign_roi cv df) ->
  c_ctr c = fdiv (c_clicks c) (c_impressions c)
  /\ (c_impressions c = zero ->
      undefined (c_ctr c)
      /\ c_ctr c <> zero
      /\ (c_clicks c = zero -> c_ctr c = NaN)
      /\ (fgtb (c_clicks c) zero = true -> c_ctr c = PInf))
  /\ (forall r : record, impressions r = zero -> ctr (kpi_row r) = zero).
Proof.
  intros Hc. apply campaign_roi_In in Hc. destruct Hc as [s [_ ->]].
  cbn [campaign_of_sums c_ctr c_clicks c_impressions].
  split; [reflexivity|]. split.
  - intros ->.
    split; [apply fdiv_zero_undefined|].
    split; [apply undefined_not_zero, fdiv_zero_undefined|].
    split; [intros ->; reflexivity|].
    destruct (s_clicks s) as [q| | |]; try discriminate.
    + intros H. apply (fltb_Fin 0 q) in H. apply Qclt_alt in H.
      unfold fdiv, zero, of_Z. change (sgn (qz 0)) with Eq.
      cbn iota. unfold sgn.
      change 0 with (qz 0) in H.
      assert (G : (q ?= qz 0) = Gt).
      { destruct (q ?= qz 0) eqn:E; try reflexivity.
        - apply Qceq_alt in E. subst q. discriminate H.
        - apply Qclt_alt in E. apply Qclt_alt in H.
          exfalso. exact (Qclt_not_le _ _ H (Qclt_le_weak _ _ E)). }
      change (Q2Qc 0) with (qz 0). rewrite G. reflexivity.
    + intros _. reflexivity.
  - intros r H. cbn [kpi_row ctr]. rewrite H. reflexivity.
Qed.

Lemma campaign_ctr_unguarded_witness :
  exists c : campaign_row,
    In c (calculate_campaign_roi (of_Z 100) [zero_featured])
    /\ c_impressions c = zero
    /\ c_ctr c = NaN.
Proof.
  eexists.
  assert (Hin : In (hd (campaign_of_sums zero
                          (mk_sums (KStr "") zero zero zero zero))
                       (calculate_campaign_roi (of_Z 100) [zero_featured]))
                   (calculate_campaign_roi (of_Z 100) [zero_featured]))
    by (left; reflexivity).
  split; [exact Hin|]. split; [reflexivity|].
  destruct (campaign_ctr_unguarded (of_Z 100) [zero_featured] _ Hin)
    as [_ [H _]].
  destruct (H eq_refl) as [_ [_ [Hnan _]]].
  apply Hnan. reflexivity.
Defined.

(** C10, as stated, fails: the campaign of a single record with 5 clicks
    and no impression has summed impressions 0 and its ctr is plus
    infinity, which is not the not-a-number marker. *)
Lemma campaign_ctr_infinite :
  exists c : campaign_row,
    calculate_campaign_roi (of_Z 100)
      (run_full_pipeline [clicks_without_impressions]) = [c]
    /\ c_impressions c = zero
    /\ c_ctr c = PInf
    /\ c_ctr c <> NaN.
Proof.
  eexists. split; [reflexivity|].
  split; [reflexivity|]. split; [reflexivity | discriminate].
Qed.

(** ** Saving the results *)

Import ResultStore MarketingVisualization.

Section SaveResults.

Lemma append_inv_head (s a b : string) : s ++ a = s ++ b -> a = b.
Proof.
  induction s as [|c s IH]; simpl; intros H; [exact H|].
  injection H as H. exact (IH H).
Qed.

Lemma dict_set_Forall (P : string * pyobj -> Prop) (name : string)
  (obj : pyobj) (st : store) :
  Forall P st -> P (name, obj) -> Forall P (dict_set name obj st).
Proof.
  intros Hst Hobj. induction Hst as [|[n o] rest Hno Hrest IH]; simpl.
  - constructor; [exact Hobj | constructor].
  - destruct (String.eqb n name) eqn:E.
    + apply String.eqb_eq in E. subst n. constructor; assumption.
    + constructor; assumption.
Qed.

Lemma store_tiers_Forall (P : string * pyobj -> Prop) (st st' : store) :
  (forall t, P ("campaign_metrics", ODataFrame (TieredTable t))) ->
  Forall P st -> store_tiers st = inr st' -> Forall P st'.
Proof.
  intros HP Hst. unfold store_tiers.
  destruct (dict_get "campaign_metrics" st) as [[[t|t|t]|items]|];
    intros H; try discriminate H; injection H as <-;
    apply dict_set_Forall; auto.
Qed.

Lemma tables_only_entries (st : store) :
  tables_only st -> Forall table_entry st.
Proof.
  induction 1 as [|cv df st _ IH|cv df st _ IH|cv df st _ IH|st st' _ IH E].
  - constructor.
  - apply dict_set_Forall; [exact IH|]. left.
    split; [reflexivity|]. left. eexists. reflexivity.
  - apply dict_set_Forall; [exact IH|]. right; left.
    split; [reflexivity|]. exists (calculate_demographic_roi cv df).
    split; reflexivity.
  - apply dict_set_Forall; [exact IH|]. right; right.
    split; [reflexivity|]. exists (calculate_time_roi cv df).
    split; reflexivity.
  - apply (store_tiers_Forall _ st st'); [|exact IH|exact E].
    intros t. left. split; [reflexivity|]. right. eexists. reflexivity.
Qed.

Lemma built_entries (st : store) :
  built st -> Forall (fun e => table_entry e \/ overall_entry e) st.
Proof.
  induction 1 as [|cv df st _ IH|cv df st _ IH|cv df st _ IH|cv df st _ IH
                  |st st' _ IH E].
  - constructor.
  - apply dict_set_Forall; [exact IH|]. right. split; simpl; eauto.
  - apply dict_set_Forall; [exact IH|]. left; left.
    split; [reflexivity|]. left. eexists. reflexivity.
  - apply dict_set_Forall; [exact IH|]. left; right; left.
    split; [reflexivity|]. exists (calculate_demographic_roi cv df).
    split; reflexivity.
  - apply dict_set_Forall; [exact IH|]. left; right; right.
    split; [reflexivity|]. exists (calculate_time_roi cv df).
    split; reflexivity.
  - apply (store_tiers_Forall _ st st'); [|exact IH|exact E].
    intros t. left; left. split; [reflexivity|]. right. eexists.
    reflexivity.
Qed.

End SaveResults.

Section FileSystem.

Variable fs : file_system.

Lemma save_items_paths (prefix : string)
  (l : list (string * list group_row)) (p : string) :
  In p (map fst (fst (save_items fs prefix (group_items l)))) ->
  In p (map (fun n => prefix ++ "_" ++ n ++ ".csv") (map fst l)).
Proof.
  induction l as [|[n t] l IH]; [intros []|].
  change (group_items ((n, t) :: l))
    with ((n, VTable (GroupTable t)) :: group_items l).
  cbn [save_items map fst].
  destruct (to_csv fs (prefix ++ "_" ++ n ++ ".csv")); [intros []|].
  destruct (save_items fs prefix (group_items l)) as [w e].
  cbn [fst map] in *. intros [<-|Hp]; [now left | right; now apply IH].
Qed.

Lemma save_items_ok (prefix : string) (l : list (string * list group_row)) :
  (forall n, In n (map fst l) ->
             to_csv fs (prefix ++ "_" ++ n ++ ".csv") = None) ->
  snd (save_items fs prefix (group_items l)) = None.
Proof.
  induction l as [|[n t] l IH]; intros H; [reflexivity|].
  change (group_items ((n, t) :: l))
    with ((n, VTable (GroupTable t)) :: group_items l).
  cbn [save_items].
  rewrite (H n (or_introl eq_refl)).
  specialize (IH (fun n' Hn' => H n' (or_intror Hn'))).
  destruct (save_items fs prefix (group_items l)) as [w e].
  exact IH.
Qed.

Lemma save_entries_dataframe (name : string) (t : table) (rest : store)
  (dir : string) :
  save_entries fs ((name, ODataFrame t) :: rest) dir
  = match to_csv fs (dir ++ "/" ++ name ++ ".csv") with
    | Some e => ([], Some e)
    | None =>
        ((dir ++ "/" ++ name ++ ".csv", t)
           :: fst (save_entries fs rest dir),
         snd (save_entries fs rest dir))
    end.
Proof.
  cbn [save_entries].
  destruct (to_csv fs (dir ++ "/" ++ name ++ ".csv")); [reflexivity|].
  destruct (save_entries fs rest dir). reflexivity.
Qed.

Lemma save_entries_dict (name : string) (items : list (string * value))
  (rest : store) (dir : string) :
  save_entries fs ((name, ODict items) :: rest) dir
  = match snd (save_items fs (dir ++ "/" ++ name) items) with
    | Some e => (fst (save_items fs (dir ++ "/" ++ name) items), Some e)
    | None =>
        (app (fst (save_items fs (dir ++ "/" ++ name) items))
             (fst (save_entries fs rest dir)),
         snd (save_entries fs rest dir))
    end.
Proof.
  cbn [save_entries].
  destruct (save_items fs (dir ++ "/" ++ name) items) as [w [e|]];
    [reflexivity|].
  destruct (save_entries fs rest dir). reflexivity.
Qed.

Lemma save_entries_overall (name : string) (m : overall) (rest : store)
  (dir : string) :
  save_entries fs ((name, ODict (overall_items m)) :: rest) dir
  = ([], Some AttributeError).
Proof. reflexivity. Qed.

(** The paths of the two dictionaries of tables are inputs of the
    visualization. *)
Lemma demographic_paths (dir p : string) :
  In p (map (fun n => (dir ++ "/" ++ "demographic_metrics")
                        ++ "_" ++ n ++ ".csv")
            ["gender"; "age_group"; "demographic_segment"]) ->
  In p (tl (run_all_inputs dir)).
Proof.
  unfold run_all_inputs, demographic_metrics_csv.
  simpl. rewrite !append_assoc'. simpl. tauto.
Qed.

Lemma time_paths (dir p : string) :
  In p (map (fun n => (dir ++ "/" ++ "time_metrics") ++ "_" ++ n ++ ".csv")
            ["monthly"; "day_of_week"]) ->
  In p (tl (run_all_inputs dir)).
Proof.
  unfold run_all_inputs, time_metrics_monthly_csv,
    time_metrics_day_of_week_csv.
  simpl. rewrite !append_assoc'. simpl. tauto.
Qed.

Lemma entries_written_paths (st : store) (dir : string) :
  Forall (fun e => table_entry e \/ overall_entry e) st ->
  forall p, In p (map fst (fst (save_entries fs st dir))) ->
            In p (tl (run_all_inputs dir)).
Proof.
  intros H.
  induction H as [|[n o] rest Hno _ IH]; [intros p []|].
  destruct Hno as [[[Hn [[t Ho]|[t Ho]]]
                    |[[Hn [l [Ho Hl]]]|[Hn [l [Ho Hl]]]]]
                  |[Hn [m Ho]]];
    simpl in Hn, Ho; subst n o.
  - rewrite save_entries_dataframe.
    destruct (to_csv fs _); [intros p []|].
    intros p [<-|Hp]; [left; reflexivity | exact (IH p Hp)].
  - rewrite save_entries_dataframe.
    destruct (to_csv fs _); [intros p []|].
    intros p [<-|Hp]; [left; reflexivity | exact (IH p Hp)].
  - rewrite save_entries_dict.
    assert (Hi : forall p,
               In p (map fst (fst (save_items fs
                                     (dir ++ "/" ++ "demographic_metrics")
                                     (group_items l)))) ->
               In p (tl (run_all_inputs dir))).
    { intros p Hp. apply save_items_paths in Hp. rewrite Hl in Hp.
      now apply demographic_paths. }
    destruct (snd (save_items fs _ (group_items l))); [exact Hi|].
    intros p Hp. cbn [fst] in Hp. rewrite map_app in Hp.
    apply in_app_or in Hp. destruct Hp as [Hp|Hp];
      [exact (Hi p Hp) | exact (IH p Hp)].
  - rewrite save_entries_dict.
    assert (Hi : forall p,
               In p (map fst (fst (save_items fs
                                     (dir ++ "/" ++ "time_metrics")
                                     (group_items l)))) ->
               In p (tl (run_all_inputs dir))).
    { intros p Hp. apply save_items_paths in Hp. rewrite Hl in Hp.
      now apply time_paths. }
    destruct (snd (save_items fs _ (group_items l))); [exact Hi|].
    intros p Hp. cbn [fst] in Hp. rewrite map_app in Hp.
    apply in_app_or in Hp. destruct Hp as [Hp|Hp];
      [exact (Hi p Hp) | exact (IH p Hp)].
  - rewrite save_entries_overall. intros p [].
Qed.

Section Writable.

Variable dir : string.
Hypothesis writable :
  forall p, In p (run_all_inputs dir) -> to_csv fs p = None.

Lemma writable_campaign :
  to_csv fs (dir ++ "/" ++ "campaign_metrics" ++ ".csv") = None.
Proof. apply writable. right; left. reflexivity. Qed.

Lemma writable_demographic (l : list (string * list group_row)) :
  map fst l = ["gender"; "age_group"; "demographic_segment"] ->
  snd (save_items fs (dir ++ "/" ++ "demographic_metrics") (group_items l))
  = None.
Proof.
  intros Hl. apply save_items_ok. intros n Hn. apply writable.
  apply (in_cons _ _ (tl (run_all_inputs dir))).
  apply demographic_paths. rewrite <- Hl.
  exact (in_map (fun n => (dir ++ "/" ++ "demographic_metrics")
                            ++ "_" ++ n ++ ".csv") _ _ Hn).
Qed.

Lemma writable_time (l : list (string * list group_row)) :
  map fst l = ["monthly"; "day_of_week"] ->
  snd (save_items fs (dir ++ "/" ++ "time_metrics") (group_items l)) = None.
Proof.
  intros Hl. apply save_items_ok. intros n Hn. apply writable.
  apply (in_cons _ _ (tl (run_all_inputs dir))).
  apply time_paths. rewrite <- Hl.
  exact (in_map (fun n => (dir ++ "/" ++ "time_metrics")
                            ++ "_" ++ n ++ ".csv") _ _ Hn).
Qed.

Lemma entries_tables_ok (st : store) :
  Forall table_entry st -> snd (save_entries fs st dir) = None.
Proof.
  intros H.
  induction H as [|[n o] rest Hno _ IH]; [reflexivity|].
  destruct Hno as [[Hn [[t Ho]|[t Ho]]]
                  |[[Hn [l [Ho Hl]]]|[Hn [l [Ho Hl]]]]];
    simpl in Hn, Ho; subst n o.
  - rewrite save_entries_dataframe, writable_campaign. exact IH.
  - rewrite save_entries_dataframe, writable_campaign. exact IH.
  - rewrite save_entries_dict, (writable_demographic l Hl). exact IH.
  - rewrite save_entries_dict, (writable_time l Hl). exact IH.
Qed.

Lemma entries_overall_attribute_error (st : store) :
  Forall (fun e => table_entry e \/ overall_entry e) st ->
  In "overall_metrics" (map fst st) ->
  snd (save_entries fs st dir) = Some AttributeError.
Proof.
  intros H.
  induction H as [|[n o] rest Hno _ IH]; [intros []|].
  intros Hin.
  destruct Hno as [[[Hn [[t Ho]|[t Ho]]]
                    |[[Hn [l [Ho Hl]]]|[Hn [l [Ho Hl]]]]]
                  |[Hn [m Ho]]];
    simpl in Hn, Ho; subst n o;
    try (rewrite save_entries_overall; reflexivity);
    (destruct Hin as [E|Hin]; [discriminate E|]).
  - rewrite save_entries_dataframe, writable_campaign. exact (IH Hin).
  - rewrite save_entries_dataframe, writable_campaign. exact (IH Hin).
  - rewrite save_entries_dict, (writable_demographic l Hl). exact (IH Hin).
  - rewrite save_entries_dict, (writable_time l Hl). exact (IH Hin).
Qed.

End Writable.

Lemma entries_overall_raises (st : store) (dir : string) :
  Forall (fun e => table_entry e \/ overall_entry e) st ->
  In "overall_metrics" (map fst st) ->
  snd (save_entries fs st dir) <> None.
Proof.
  intros H.
  induction H as [|[n o] rest Hno _ IH]; [intros []|].
  intros Hin.
  destruct Hno as [[[Hn [[t Ho]|[t Ho]]]
                    |[[Hn [l [Ho Hl]]]|[Hn [l [Ho Hl]]]]]
                  |[Hn [m Ho]]];
    simpl in Hn, Ho; subst n o;
    try (rewrite save_entries_overall; discriminate);
    (destruct Hin as [E|Hin]; [discriminate E|]).
  - rewrite save_entries_dataframe.
    destruct (to_csv fs _); [discriminate | exact (IH Hin)].
  - rewrite save_entries_dataframe.
    destruct (to_csv fs _); [discriminate | exact (IH Hin)].
  - rewrite save_entries_dict.
    destruct (snd (save_items fs _ _)); [discriminate | exact (IH Hin)].
  - rewrite save_entries_dict.
    destruct (snd (save_items fs _ _)); [discriminate | exact (IH Hin)].
Qed.

Lemma save_results_written (st : store) (dir : string) (p : string) :
  In p (map fst (fst (save_results fs st dir))) ->
  In p (map fst (fst (save_entries fs st dir))).
Proof.
  unfold save_results. destruct (makedirs fs dir); [intros [] | tauto].
Qed.

End FileSystem.



(** X2. When only the table methods have been called (campaign,
    demographic, time, tiers; any order, any number of times):
    [save_results] raises nothing provided the output directory can be
    made and the files of the tables can be written; when the directory
    cannot be made it raises the exception of [os.makedirs] and writes
    nothing; and in every case each file it writes is one of the files the
    visualization reads from that directory. *)
Theorem save_results_tables_only (fs : file_system) (st : store)
  (dir : string) :
  tables_only st ->
  (makedirs fs dir = None ->
   (forall p, In p (run_all_inputs dir) -> to_csv fs p = None) ->
   snd (save_results fs st dir) = None)
  /\ (forall e, makedirs fs dir = Some e ->
                save_results fs st dir = ([], Some e))
  /\ forall p, In p (map fst (fst (save_results fs st dir))) ->
               In p (run_all_inputs dir).
Proof.
  intros H. apply tables_only_entries in H.
  split; [|split].
  - intros Hm Hw. unfold save_results. rewrite Hm.
    now apply entries_tables_ok.
  - intros e Hm. unfold save_results. now rewrite Hm.
  - intros p Hp. apply save_results_written in Hp.
    apply (in_cons _ _ (tl (run_all_inputs dir))).
    apply (entries_written_paths fs st dir); [|exact Hp].
    eapply Forall_impl; [|exact H]. intros e He. now left.
Qed.

Lemma save_results_tables_only_witness :
  snd (save_results fs_ok
         (store_time (of_Z 100) two_genders
            (store_campaign (of_Z 100) two_genders []))
         "roi_results") = None
  /\ save_results fs_no_empty_path
       (store_time (of_Z 100) two_genders
          (store_campaign (of_Z 100) two_genders []))
       "" = ([], Some FileNotFoundError).
Proof.
  assert (T : tables_only (store_time (of_Z 100) two_genders
                             (store_campaign (of_Z 100) two_genders [])))
    by apply tables_time, tables_campaign, tables_empty.
  split.
  - apply (proj1 (save_results_tables_only fs_ok _ "roi_results" T));
      reflexivity.
  - apply (proj1 (proj2 (save_results_tables_only
                           fs_no_empty_path _ "" T))).
    reflexivity.
Defined.

(** X3. Whatever methods of the calculator have filled the store, in
    any order, and whatever the file system: [save_results] never writes
    the file overall_metrics.csv that [plot_overall_metrics] reads, and
    every file it does write is one of the other inputs of the
    visualization.  As soon as [calculate_overall_roi] has been called it
    raises an exception: the one of [os.makedirs] when the directory
    cannot be made, and [AttributeError] when the directory can be made
    and the files of the tables can be written. *)
Theorem overall_metrics_never_saved (fs : file_system) (st : store)
  (dir : string) :
  built st ->
  ~ In (overall_metrics_csv dir) (map fst (fst (save_results fs st dir)))
  /\ (forall p, In p (map fst (fst (save_results fs st dir))) ->
                In p (tl (run_all_inputs dir)))
  /\ (In "overall_metrics" (map fst st) ->
      snd (save_results fs st dir) <> None
      /\ (forall e, makedirs fs dir = Some e ->
                    save_results fs st dir = ([], Some e))
      /\ (makedirs fs dir = None ->
          (forall p, In p (run_all_inputs dir) -> to_csv fs p = None) ->
          snd (save_results fs st dir) = Some AttributeError)).
Proof.
  intros H. apply built_entries in H.
  assert (P : forall p, In p (map fst (fst (save_results fs st dir))) ->
                        In p (tl (run_all_inputs dir))).
  { intros p Hp. apply save_results_written in Hp.
    exact (entries_written_paths fs st dir H p Hp). }
  split; [|split].
  - intros Hin. apply P in Hin.
    unfold run_all_inputs, overall_metrics_csv, campaign_metrics_csv,
      demographic_metrics_csv, time_metrics_monthly_csv,
      time_metrics_day_of_week_csv in Hin.
    cbn [tl In] in Hin.
    repeat (destruct Hin as [E|Hin];
            [apply append_inv_head in E; discriminate E|]).
    exact Hin.
  - exact P.
  - intros Hin. unfold save_results. split; [|split].
    + destruct (makedirs fs dir); [discriminate|].
      now apply entries_overall_raises.
    + intros e ->. reflexivity.
    + intros -> Hw. now apply entries_overall_attribute_error.
Qed.

Lemma overall_metrics_never_saved_witness :
  ~ In (overall_metrics_csv "outputs/tables")
       (map fst (fst (save_results fs_ok
                        (store_overall (of_Z 100) two_genders
                           (store_campaign (of_Z 100) two_genders []))
                        "outputs/tables")))
  /\ snd (save_results fs_ok
            (store_overall (of_Z 100) two_genders
               (store_campaign (of_Z 100) two_genders []))
            "outputs/tables") = Some AttributeError.
Proof.
  destruct (overall_metrics_never_saved fs_ok
              (store_overall (of_Z 100) two_genders
                 (store_campaign (of_Z 100) two_genders []))
              "outputs/tables"
              (built_overall _ _ _ (built_campaign _ _ _ built_empty)))
    as [H1 [_ H3]].
  split; [exact H1|].
  destruct (H3 (or_intror (or_introl eq_refl))) as [_ [_ H]].
  apply H; reflexivity.
Defined.

(** ** Return on investment and return on ad spend *)

Section Ratios.

Variables s v : Qc.
Hypothesis s_nonzero : s <> 0.

Lemma roi_roas_Fin :
  fdiv (fsub (Fin v) (Fin s)) (Fin s) = fsub (fdiv (Fin v) (Fin s)) one.
Proof.
  change (fsub (Fin v) (Fin s)) with (Fin (v + - s)).
  rewrite !(fdiv_Fin_nonzero s s_nonzero).
  change (fsub (Fin (v / s)) one) with (Fin (v / s + - qz 1)).
  f_equal. change (qz 1) with 1. field. exact s_nonzero.
Qed.

End Ratios.

(** X4. In the campaign table and in every table of [_group_roi], a row
    whose spend is a nonzero number and whose revenue is a number has
    roi = roas - 1.  The overall metrics have roi = roas - 1 when the total
    spend is a number above 0, and roi = roas = 0 when it is not above
    0. *)
Theorem roi_is_roas_minus_one (cv : fnum) (df : list featured) :
  (forall c s v,
      In c (calculate_campaign_roi cv df) ->
      c_spent c = Fin s -> s <> 0 -> c_revenue c = Fin v ->
      c_roi c = fsub (c_roas c) one)
  /\ (forall d g s v,
         In g (_group_roi cv df d) ->
         g_spent g = Fin s -> s <> 0 -> g_revenue g = Fin v ->
         g_roi g = fsub (g_roas g) one)
  /\ (forall s v,
         total_spend (calculate_overall_roi cv df) = Fin s ->
         total_revenue (calculate_overall_roi cv df) = Fin v ->
         (0 < s ->
          o_roi (calculate_overall_roi cv df)
          = fsub (o_roas (calculate_overall_roi cv df)) one)
         /\ (s <= 0 ->
             o_roi (calculate_overall_roi cv df) = zero
             /\ o_roas (calculate_overall_roi cv df) = zero)).
Proof.
  split; [|split].
  - intros c s v Hc Hs Hnz Hv.
    apply campaign_roi_In in Hc. destruct Hc as [g [_ ->]].
    cbn [campaign_of_sums c_spent c_revenue c_roi c_roas] in *.
    rewrite Hs, Hv. now apply roi_roas_Fin.
  - intros d g s v Hg Hs Hnz Hv.
    apply group_roi_In in Hg. destruct Hg as [x [_ ->]].
    cbn [group_of_sums g_spent g_revenue g_roi g_roas] in *.
    rewrite Hs, Hv. now apply roi_roas_Fin.
  - intros s v. unfold calculate_overall_roi.
    cbn [total_spend total_revenue o_roi o_roas].
    intros Hs Hv. rewrite Hs, Hv. split.
    + intros Hpos.
      assert (G : fgtb (Fin s) zero = true) by (now apply fltb_Fin).
      rewrite G. apply roi_roas_Fin.
      intros E. subst s. exact (Qclt_not_eq _ _ Hpos eq_refl).
    + intros Hle.
      assert (G : fgtb (Fin s) zero = false) by (now apply fltb_Fin_false).
      rewrite G. split; reflexivity.
Qed.

Lemma roi_is_roas_minus_one_witness :
  (exists c, In c (calculate_campaign_roi (of_Z 100) two_genders)
             /\ c_roi c = fsub (c_roas c) one)
  /\ o_roi (calculate_overall_roi (of_Z 100) two_genders)
     = fsub (o_roas (calculate_overall_roi (of_Z 100) two_genders)) one.
Proof.
  pose proof (roi_is_roas_minus_one (of_Z 100) two_genders) as [Hc [_ Ho]].
  split.
  - eexists.
    assert (Hin : In (hd (campaign_of_sums zero
                            (mk_sums (KStr "") zero zero zero zero))
                         (calculate_campaign_roi (of_Z 100) two_genders))
                     (calculate_campaign_roi (of_Z 100) two_genders))
      by (left; reflexivity).
    split; [exact Hin|].
    apply (Hc _ (qz 15) (qz 200) Hin); [qc_eq | qc_neq | qc_eq].
  - apply (Ho (qz 15) (qz 200)); [qc_eq | qc_eq | reflexivity].
Defined.

(** ** Tiers, profit and order *)

Lemma tier_loss_iff (x : fnum) :
  tier x = "Loss Making" <-> fltb x (of_Z 1) = true.
Proof.
  unfold tier.
  destruct (fltb x (of_Z 1)); [tauto|].
  destruct (fltb x (of_Z 2)); [split; discriminate|].
  destruct (fltb x (of_Z 5)); split; discriminate.
Qed.

Lemma tier_top_iff (x : fnum) :
  tier x = "Highly Profitable" <-> fltb x (of_Z 5) = false.
Proof.
  unfold tier.
  destruct (fltb x (of_Z 5)) eqn:E5.
  - destruct (fltb x (of_Z 1)); [split; discriminate|].
    destruct (fltb x (of_Z 2)); split; discriminate.
  - destruct x as [q| | |]; try (split; reflexivity).
    + apply fltb_Fin_false in E5.
      assert (E2 : fltb (Fin q) (of_Z 2) = false).
      { apply fltb_Fin_false. eapply Qcle_trans; [|exact E5].
        unfold Qcle; simpl; discriminate. }
      assert (E1 : fltb (Fin q) (of_Z 1) = false).
      { apply fltb_Fin_false. eapply Qcle_trans; [|exact E5].
        unfold Qcle; simpl; discriminate. }
      rewrite E1, E2. tauto.
    + discriminate E5.
Qed.

Section Quotients.

Variables s v : Qc.
Hypothesis s_pos : 0 < s.

Lemma s_nonzero' : s <> 0.
Proof. intros E. rewrite E in s_pos. exact (Qclt_not_eq _ _ s_pos eq_refl). Qed.

Lemma quotient_times : v / s * s = v.
Proof. rewrite Qcmult_comm. apply Qcmult_div_r. exact s_nonzero'. Qed.

Lemma quotient_lt (k : Qc) : v / s < k <-> v < k * s.
Proof.
  split; intros H.
  - rewrite <- quotient_times. now apply Qcmult_lt_compat_r.
  - apply Qcnot_le_lt. intros L.
    apply (Qcmult_le_compat_r _ _ s) in L; [|now apply Qclt_le_weak].
    rewrite quotient_times in L. exact (Qclt_not_le _ _ H L).
Qed.

Lemma quotient_ge (k : Qc) : k <= v / s <-> k * s <= v.
Proof.
  split; intros H.
  - rewrite <- quotient_times. apply Qcmult_le_compat_r;
      [exact H | now apply Qclt_le_weak].
  - apply Qcnot_lt_le. intros L. apply quotient_lt in L.
    exact (Qclt_not_le _ _ L H).
Qed.

End Quotients.

(** X5, in exact arithmetic (the float64 rounding of the quotient and the
    int64 wrap-around of the sums are set aside: a rounded ROAS can land
    on a boundary that the exact quotient stays just below).  For a
    campaign whose summed spend is a number above 0 and whose revenue is a
    number, the tier is Loss Making exactly when the profit is below 0
    (revenue below spend), and Highly Profitable exactly when the revenue
    is at least five times the spend. *)
Theorem tier_follows_profit (cv : fnum) (df : list featured)
  (t : tiered_row) (s v : Qc) :
  In t (assign_performance_tiers (calculate_campaign_roi cv df)) ->
  c_spent (metrics t) = Fin s -> 0 < s ->
  c_revenue (metrics t) = Fin v ->
  (performance_tier t = "Loss Making"
   <-> fltb (c_profit (metrics t)) zero = true)
  /\ (performance_tier t = "Loss Making" <-> v < s)
  /\ (performance_tier t = "Highly Profitable" <-> qz 5 * s <= v).
Proof.
  unfold assign_performance_tiers. rewrite in_map_iff.
  intros [c [<- Hc]]. cbn [metrics performance_tier].
  apply campaign_roi_In in Hc. destruct Hc as [g [_ ->]].
  cbn [campaign_of_sums c_spent c_revenue c_profit c_roas].
  intros Hs Hpos Hv. rewrite Hs, Hv.
  rewrite (fdiv_Fin_nonzero s (s_nonzero' s Hpos)).
  assert (L : tier (Fin (v / s)) = "Loss Making" <-> v < s).
  { rewrite tier_loss_iff. unfold of_Z. rewrite fltb_Fin.
    rewrite (quotient_lt s v Hpos). change (qz 1) with 1.
    now rewrite Qcmult_1_l. }
  split; [|split].
  - rewrite L. change (fsub (Fin v) (Fin s)) with (Fin (v + - s)).
    unfold zero, of_Z. rewrite fltb_Fin. change (qz 0) with 0.
    rewrite (Qclt_minus_iff v s), (Qclt_minus_iff (v + - s) 0).
    replace (0 + - (v + - s)) with (s + - v) by ring. tauto.
  - exact L.
  - rewrite tier_top_iff. unfold of_Z. rewrite fltb_Fin_false.
    apply (quotient_ge s v Hpos).
Qed.

Lemma tier_follows_profit_witness :
  exists t,
    In t (assign_performance_tiers
            (calculate_campaign_roi (of_Z 100) two_genders))
    /\ (performance_tier t = "Highly Profitable"
        <-> qz 5 * qz 15 <= qz 200).
Proof.
  eexists.
  assert (Hin : In (hd (mk_tiered_row
                          (campaign_of_sums zero
                             (mk_sums (KStr "") zero zero zero zero)) "")
                       (assign_performance_tiers
                          (calculate_campaign_roi (of_Z 100) two_genders)))
                   (assign_performance_tiers
                      (calculate_campaign_roi (of_Z 100) two_genders)))
    by (left; reflexivity).
  split; [exact Hin|].
  refine (proj2 (proj2 (tier_follows_profit (of_Z 100) two_genders _
                          (qz 15) (qz 200) Hin _ _ _))).
  - qc_eq.
  - reflexivity.
  - qc_eq.
Defined.

Lemma fltb_trans (a b c : fnum) :
  fltb a b = true -> fltb b c = true -> fltb a c = true.
Proof.
  destruct a as [x| | |], b as [y| | |], c as [z| | |];
    try discriminate; try reflexivity.
  rewrite !fltb_Fin. apply Qclt_trans.
Qed.

(** [a <= b] on numbers: neither is not-a-number and [b] is not below
    [a]. *)
Lemma fltb_le_trans (a b c : fnum) :
  is_nan a = false -> is_nan b = false ->
  fltb b a = false -> fltb b c = true -> fltb a c = true.
Proof.
  destruct a as [x| | |], b as [y| | |], c as [z| | |];
    try discriminate; try reflexivity.
  intros _ _. rewrite fltb_Fin_false, !fltb_Fin. apply Qcle_lt_trans.
Qed.

(** X6. The classifier is monotone: of two ROAS values that are numbers or
    infinities, the one that is not below the other never gets a lower
    tier. *)
Theorem tier_monotone (a b : fnum) :
  is_nan a = false -> is_nan b = false -> fltb b a = false ->
  (tier_rank (tier a) <= tier_rank (tier b))%nat.
Proof.
  intros Ha Hb Hle.
  pose proof (fltb_le_trans a b (of_Z 1) Ha Hb Hle) as T1.
  pose proof (fltb_le_trans a b (of_Z 2) Ha Hb Hle) as T2.
  pose proof (fltb_le_trans a b (of_Z 5) Ha Hb Hle) as T5.
  unfold tier.
  destruct (fltb b (of_Z 1)); [rewrite (T1 eq_refl); apply le_n|].
  destruct (fltb b (of_Z 2)).
  { rewrite (T2 eq_refl). destruct (fltb a (of_Z 1)); vm_compute; lia. }
  destruct (fltb b (of_Z 5)).
  { rewrite (T5 eq_refl).
    destruct (fltb a (of_Z 1)); [vm_compute; lia|].
    destruct (fltb a (of_Z 2)); vm_compute; lia. }
  destruct (fltb a (of_Z 1)); [vm_compute; lia|].
  destruct (fltb a (of_Z 2)); [vm_compute; lia|].
  destruct (fltb a (of_Z 5)); vm_compute; lia.
Qed.

Lemma tier_monotone_witness :
  (tier_rank (tier (frac 3 2)) <= tier_rank (tier PInf))%nat.
Proof.
  apply (tier_monotone (frac 3 2) PInf); reflexivity.
Defined.

(** ** Sizes of the tables *)

Lemma present_keys_length (col : featured -> option key)
  (df : list featured) :
  (List.length (present_keys col df) <= List.length df)%nat.
Proof.
  induction df as [|r df IH]; simpl; [lia|].
  rewrite length_app. destruct (col r); simpl; lia.
Qed.

Lemma group_keys_length (col : featured -> option key)
  (df : list featured) :
  (List.length (group_keys col df) <= List.length df)%nat.
Proof.
  unfold group_keys.
  rewrite (Permutation_length (sort_keys_perm _)).
  eapply Nat.le_trans; [|apply present_keys_length].
  apply NoDup_incl_length; [apply NoDup_nodup|].
  intros k Hk. exact (proj1 (nodup_In _ _ _) Hk).
Qed.

Lemma day_name_weekday (d : date) : In (KStr (day_name d)) weekdays.
Proof.
  unfold day_name, weekdays.
  destruct ((days_from_civil d + 3) mod 7)%Z as [|p|p]; simpl; auto 10.
  do 6 (destruct p as [p|p|]; simpl; auto 10).
Qed.

(** X7. A table has at most as many rows as the input, and none for an
    empty input; the day-of-week table has at most seven rows, each keyed
    by a weekday name. *)
Theorem table_sizes (cv : fnum) (df : list featured) (d : dimension) :
  (List.length (aggregate cv df d) <= List.length df)%nat
  /\ aggregate cv [] d = []
  /\ (List.length (_group_roi cv df Dday_of_week) <= 7)%nat
  /\ (forall g, In g (_group_roi cv df Dday_of_week) ->
                In (g_key g) weekdays).
Proof.
  assert (K : forall g, In g (_group_roi cv df Dday_of_week) ->
                        In (g_key g) weekdays).
  { intros g Hg. apply (in_map g_key) in Hg.
    assert (E : map g_key (_group_roi cv df Dday_of_week)
                = group_keys (column Dday_of_week) df)
      by (rewrite <- (group_roi_keys cv), map_map; reflexivity).
    rewrite E in Hg. apply group_keys_In in Hg.
    destruct Hg as [r [_ Hr]]. unfold column in Hr.
    destruct (reporting_start (base r)) as [dt|]; [|discriminate Hr].
    injection Hr as <-. apply day_name_weekday. }
  split; [|split; [|split]].
  - rewrite <- (length_map fst), aggregate_keys. apply group_keys_length.
  - destruct d; reflexivity.
  - rewrite <- (length_map g_key).
    change 7%nat with (List.length weekdays).
    apply NoDup_incl_length.
    + assert (E : map g_key (_group_roi cv df Dday_of_week)
                  = group_keys (column Dday_of_week) df)
        by (rewrite <- (group_roi_keys cv), map_map; reflexivity).
      rewrite E. apply group_keys_NoDup.
    + intros k Hk. apply in_map_iff in Hk. destruct Hk as [g [<- Hg]].
      now apply K.
  - exact K.
Qed.

(** ** Conservation of the totals *)

Section Conservation.

Lemma fold_fadd_val (l : list fnum) :
  Forall number_or_missing l ->
  forall a : Qc,
    fold_left fadd (filter (fun x => negb (is_nan x)) l) (Fin a)
    = Fin (a + qsum (map val l)).
Proof.
  induction 1 as [|x l Hx _ IH]; intros a; simpl.
  - now rewrite Qcplus_0_r.
  - destruct x as [q| | |]; try contradiction; simpl.
    + rewrite IH. now rewrite Qcplus_assoc.
    + rewrite IH. now rewrite Qcplus_0_l.
Qed.

Lemma pd_sum_val (l : list fnum) :
  Forall number_or_missing l -> pd_sum l = Fin (qsum (map val l)).
Proof.
  intros H. unfold pd_sum, zero, of_Z. change (qz 0) with 0.
  rewrite (fold_fadd_val l H 0). now rewrite Qcplus_0_l.
Qed.

Lemma qsum_plus {A : Type} (f g : A -> Qc) (l : list A) :
  qsum (map (fun k => f k + g k) l) = qsum (map f l) + qsum (map g l).
Proof.
  induction l as [|k l IH]; simpl; [now rewrite Qcplus_0_l|].
  rewrite IH. ring.
Qed.

Lemma qsum_zero {A : Type} (f : A -> Qc) (l : list A) :
  (forall k, In k l -> f k = 0) -> qsum (map f l) = 0.
Proof.
  induction l as [|k l IH]; simpl; intros H; [reflexivity|].
  rewrite (H k (or_introl eq_refl)), IH; [apply Qcplus_0_l|].
  intros k' Hk'. apply H. now right.
Qed.

(** One key of a duplicate-free list picks up the amount. *)
Lemma qsum_pick (k0 : key) (x : Qc) (ks : list key) :
  NoDup ks ->
  qsum (map (fun k => if key_eqb k0 k then x else 0) ks)
  = if in_dec key_eq_dec k0 ks then x else 0.
Proof.
  induction 1 as [|k ks Hk Hks IH]; [reflexivity|].
  cbn [map qsum fold_right]. fold (qsum (map (fun k => if key_eqb k0 k then x else 0) ks)).
  rewrite IH. unfold key_eqb.
  destruct (key_eq_dec k0 k) as [<-|Hne].
  - destruct (in_dec key_eq_dec k0 ks) as [Hin|_]; [contradiction|].
    destruct (in_dec key_eq_dec k0 (k0 :: ks)) as [_|Hn];
      [apply Qcplus_0_r | exfalso; apply Hn; now left].
  - rewrite Qcplus_0_l.
    destruct (in_dec key_eq_dec k0 ks) as [Hin|Hn];
      destruct (in_dec key_eq_dec k0 (k :: ks)) as [Hin'|Hn'];
      try reflexivity.
    + exfalso. apply Hn'. now right.
    + exfalso. destruct Hin' as [E|Hin']; [now apply Hne | now apply Hn].
Qed.

Variable col : featured -> option key.
Variable g : featured -> Qc.

Lemma double_sum (ks : list key) (df : list featured) :
  NoDup ks ->
  (forall r k, In r df -> col r = Some k -> In k ks) ->
  qsum (map (fun k => qsum (map g (filter (has_key col k) df))) ks)
  = qsum (map g (filter (key_present col) df)).
Proof.
  intros Hnd. induction df as [|r df IH]; intros Hks.
  - cbn [filter map]. apply qsum_zero. reflexivity.
  - assert (IH' := IH (fun r' k Hr => Hks r' k (or_intror Hr))).
    clear IH.
    assert (E : forall k,
               qsum (map g (filter (has_key col k) (r :: df)))
               = (if has_key col k r then g r else 0)
                 + qsum (map g (filter (has_key col k) df))).
    { intros k. cbn [filter]. destruct (has_key col k r);
        [reflexivity | now rewrite Qcplus_0_l]. }
    rewrite (map_ext _ _ E), qsum_plus, IH'.
    cbn [filter].
    destruct (col r) as [k0|] eqn:Ek.
    + replace (key_present col r) with true
        by (unfold key_present; now rewrite Ek).
      rewrite (map_ext (fun k => if has_key col k r then g r else 0)
                       (fun k => if key_eqb k0 k then g r else 0))
        by (intros k; unfold has_key; now rewrite Ek).
      rewrite (qsum_pick k0 (g r) ks Hnd).
      destruct (in_dec key_eq_dec k0 ks) as [_|Hn]; [reflexivity|].
      exfalso. apply Hn. apply (Hks r k0); [now left | exact Ek].
    + replace (key_present col r) with false
        by (unfold key_present; now rewrite Ek).
      rewrite qsum_zero; [apply Qcplus_0_l|].
      intros k _. unfold has_key. now rewrite Ek.
Qed.

End Conservation.

Lemma filter_Forall {A : Type} (P : A -> Prop) (f : A -> bool)
  (l : list A) :
  Forall P l -> Forall P (filter f l).
Proof.
  induction 1 as [|x l Hx _ IH]; simpl; [constructor|].
  destruct (f x); [constructor; assumption | assumption].
Qed.

(** The sums of a column over the groups add up to its sum over the rows
    whose key is present. *)
Lemma grouped_column_total (col : featured -> option key)
  (f : featured -> fnum) (df : list featured) :
  Forall (fun r => number_or_missing (f r)) df ->
  pd_sum (map (fun k => pd_sum (map f (group_rows col df k)))
              (group_keys col df))
  = pd_sum (map f (filter (key_present col) df)).
Proof.
  intros H.
  assert (Hm : forall l, Forall (fun r => number_or_missing (f r)) l ->
                         Forall number_or_missing (map f l)).
  { intros l Hl. induction Hl; simpl; constructor; assumption. }
  assert (E : forall k,
             pd_sum (map f (group_rows col df k))
             = Fin (qsum (map (fun r => val (f r)) (group_rows col df k)))).
  { intros k. rewrite pd_sum_val, map_map; [reflexivity|].
    apply Hm. now apply filter_Forall. }
  rewrite (map_ext _ _ E).
  rewrite pd_sum_val.
  2:{ apply Forall_forall. intros x Hx. apply in_map_iff in Hx.
      destruct Hx as [k [<- _]]. exact I. }
  rewrite map_map. cbn [val].
  unfold group_rows.
  rewrite (double_sum col (fun r => val (f r)) (group_keys col df) df).
  - rewrite pd_sum_val, map_map; [reflexivity|].
    apply Hm. now apply filter_Forall.
  - apply group_keys_NoDup.
  - intros r k Hr Hk. apply group_keys_In. eauto.
Qed.

Lemma filter_all {A : Type} (f : A -> bool) (l : list A) :
  (forall x, In x l -> f x = true) -> filter f l = l.
Proof.
  induction l as [|x l IH]; simpl; intros H; [reflexivity|].
  rewrite (H x (or_introl eq_refl)). f_equal. apply IH.
  intros y Hy. apply H. now right.
Qed.

(** X8. When no spend cell and no approved-conversion cell of the input
    is infinite, the spend and the approved conversions of the rows of a
    [_group_roi] table, and of the campaign table, add up to the sums over
    the input rows whose key is present; when no key is missing they are
    the totals of the overall metrics. *)
Theorem group_totals_conserved (cv : fnum) (df : list featured)
  (d : dimension) :
  Forall (fun r => number_or_missing (df_spent r)) df ->
  Forall (fun r => number_or_missing (df_approved_conversion r)) df ->
  pd_sum (map g_spent (_group_roi cv df d))
  = pd_sum (map df_spent (filter (key_present (column d)) df))
  /\ pd_sum (map g_approved_conversion (_group_roi cv df d))
     = pd_sum (map df_approved_conversion
                   (filter (key_present (column d)) df))
  /\ pd_sum (map c_spent (calculate_campaign_roi cv df))
     = pd_sum (map df_spent
                   (filter (key_present (column Dcampaign_id)) df))
  /\ ((forall r, In r df -> column d r <> None) ->
      pd_sum (map g_spent (_group_roi cv df d))
      = total_spend (calculate_overall_roi cv df)
      /\ fmul (pd_sum (map g_approved_conversion (_group_roi cv df d))) cv
         = total_revenue (calculate_overall_roi cv df)).
Proof.
  intros Hs Ha.
  assert (E1 : pd_sum (map g_spent (_group_roi cv df d))
               = pd_sum (map df_spent
                             (filter (key_present (column d)) df))).
  { rewrite group_roi_spent_column. unfold groupby_sum.
    rewrite map_map. cbn [s_spent].
    now apply grouped_column_total. }
  assert (E2 : pd_sum (map g_approved_conversion (_group_roi cv df d))
               = pd_sum (map df_approved_conversion
                             (filter (key_present (column d)) df))).
  { rewrite group_roi_conversion_column. unfold groupby_sum.
    rewrite map_map. cbn [s_approved_conversion].
    now apply grouped_column_total. }
  split; [exact E1|]. split; [exact E2|]. split.
  - unfold calculate_campaign_roi, groupby_sum.
    rewrite !map_map. cbn [campaign_of_sums c_spent s_spent].
    now apply grouped_column_total.
  - intros Hk.
    assert (F : filter (key_present (column d)) df = df).
    { apply filter_all. intros r Hr. unfold key_present.
      specialize (Hk r Hr). destruct (column d r); [reflexivity|].
      now contradiction Hk. }
    rewrite E1, E2, F. split; reflexivity.
Qed.

Lemma group_totals_conserved_witness :
  pd_sum (map g_spent (_group_roi (of_Z 100) two_genders Dgender))
  = total_spend (calculate_overall_roi (of_Z 100) two_genders).
Proof.
  refine (proj1 (proj2 (proj2 (proj2
            (group_totals_conserved (of_Z 100) two_genders Dgender _ _)))
            _)).
  - repeat constructor.
  - repeat constructor.
  - intros r [<-|[<-|[]]]; discriminate.
Defined.

(** ** Bounds of the shares *)

Lemma qsum_nonneg (l : list Qc) :
  (forall x, In x l -> 0 <= x) -> 0 <= qsum l.
Proof.
  induction l as [|x l IH]; simpl; intros H; [apply Qcle_refl|].
  rewrite <- (Qcplus_0_l 0).
  apply Qcplus_le_compat; [apply H; now left | apply IH].
  intros y Hy. apply H. now right.
Qed.

Lemma qsum_member_le (l : list Qc) (y : Qc) :
  (forall x, In x l -> 0 <= x) -> In y l -> y <= qsum l.
Proof.
  induction l as [|x l IH]; simpl; intros H Hin; [contradiction|].
  destruct Hin as [E|Hy].
  - subst x. rewrite <- (Qcplus_0_r y) at 1.
    apply Qcplus_le_compat; [apply Qcle_refl | apply qsum_nonneg].
    intros z Hz. apply H. now right.
  - rewrite <- (Qcplus_0_l y).
    apply Qcplus_le_compat; [apply H; now left | apply IH; [|exact Hy]].
    intros z Hz. apply H. now right.
Qed.

Lemma quotient_le (s v k : Qc) : 0 < s -> (v / s <= k <-> v <= k * s).
Proof.
  intros Hs. split; intros H.
  - rewrite <- (quotient_times s v Hs).
    apply Qcmult_le_compat_r; [exact H | now apply Qclt_le_weak].
  - apply Qcnot_lt_le. intros L.
    apply (Qcmult_lt_compat_r _ _ s Hs) in L.
    rewrite (quotient_times s v Hs) in L. exact (Qclt_not_le _ _ L H).
Qed.

Lemma nonneg_number_or_missing (x : fnum) :
  nonneg_or_missing x -> number_or_missing x.
Proof. destruct x; simpl; tauto. Qed.

Lemma nonneg_val (x : fnum) : nonneg_or_missing x -> 0 <= val x.
Proof. destruct x; simpl; try tauto; intros _; apply Qcle_refl. Qed.

Lemma share_bounds (col : featured -> option key) (f : featured -> fnum)
  (df : list featured) (k : key) (t : Qc) :
  Forall (fun r => nonneg_or_missing (f r)) df ->
  In k (group_keys col df) ->
  pd_sum (map (fun k => pd_sum (map f (group_rows col df k)))
              (group_keys col df)) = Fin t ->
  t <> 0 ->
  exists x, fdiv (pd_sum (map f (group_rows col df k))) (Fin t) = Fin x
            /\ 0 <= x <= 1.
Proof.
  intros H Hk Ht Hnz.
  set (Q := fun k => qsum (map (fun r => val (f r)) (group_rows col df k))).
  assert (E : forall k, pd_sum (map f (group_rows col df k)) = Fin (Q k)).
  { intros k'. unfold Q. rewrite pd_sum_val, map_map; [reflexivity|].
    apply Forall_forall. intros x Hx. apply in_map_iff in Hx.
    destruct Hx as [r [<- Hr]]. apply nonneg_number_or_missing.
    apply filter_In in Hr. destruct Hr as [Hr _].
    rewrite Forall_forall in H. now apply H. }
  assert (Qpos : forall k', 0 <= Q k').
  { intros k'. apply qsum_nonneg. intros x Hx. apply in_map_iff in Hx.
    destruct Hx as [r [<- Hr]]. apply nonneg_val.
    apply filter_In in Hr. destruct Hr as [Hr _].
    rewrite Forall_forall in H. now apply H. }
  rewrite (map_ext _ _ E) in Ht.
  rewrite pd_sum_val, map_map in Ht.
  2:{ apply Forall_forall. intros x Hx. apply in_map_iff in Hx.
      destruct Hx as [k' [<- _]]. exact I. }
  cbn [val] in Ht. injection Ht as Ht.
  assert (Hle : Q k <= t).
  { rewrite <- Ht. apply qsum_member_le.
    - intros x Hx. apply in_map_iff in Hx. destruct Hx as [k' [<- _]].
      apply Qpos.
    - apply in_map_iff. eauto. }
  assert (Hpos : 0 < t).
  { destruct (Qcle_lt_or_eq 0 t) as [L|L]; [|exact L|now symmetry in L].
    eapply Qcle_trans; [apply (Qpos k) | exact Hle]. }
  rewrite E, (fdiv_Fin_nonzero t Hnz). exists (Q k / t).
  split; [reflexivity|]. split.
  - apply (quotient_ge t (Q k) Hpos). rewrite Qcmult_0_l. apply Qpos.
  - apply (quotient_le t (Q k) 1 Hpos). now rewrite Qcmult_1_l.
Qed.

(** X9, in exact arithmetic (float64 rounding and the int64 wrap-around
    of the sums are set aside).  When every spend cell of the input is a
    number not below 0 (or missing) and the spend of the rows of a
    [_group_roi] table sums to a nonzero number, the spend share of every
    row is a number between 0 and 1; likewise for the conversion
    shares. *)
Theorem shares_between_zero_and_one (cv : fnum) (df : list featured)
  (d : dimension) (g : group_row) :
  In g (_group_roi cv df d) ->
  (Forall (fun r => nonneg_or_missing (df_spent r)) df ->
   forall t, pd_sum (map g_spent (_group_roi cv df d)) = Fin t -> t <> 0 ->
             exists x, g_spend_share g = Fin x /\ 0 <= x <= 1)
  /\ (Forall (fun r => nonneg_or_missing (df_approved_conversion r)) df ->
      forall t,
        pd_sum (map g_approved_conversion (_group_roi cv df d)) = Fin t ->
        t <> 0 ->
        exists x, g_conversion_share g = Fin x /\ 0 <= x <= 1).
Proof.
  intros Hg. apply group_roi_In in Hg. destruct Hg as [s [Hs ->]].
  cbn [group_of_sums g_spend_share g_conversion_share].
  rewrite group_roi_spent_column, group_roi_conversion_column.
  unfold groupby_sum in Hs. apply in_map_iff in Hs.
  destruct Hs as [k [<- Hk]]. cbn [s_spent s_approved_conversion].
  split; intros H t Ht Hnz; rewrite Ht;
    apply (share_bounds (column d) _ df k t H Hk); try exact Hnz;
    rewrite <- Ht; unfold groupby_sum; rewrite map_map; reflexivity.
Qed.

Lemma shares_between_zero_and_one_witness :
  exists g x,
    In g (_group_roi (of_Z 100) two_genders Dgender)
    /\ g_spend_share g = Fin x /\ 0 <= x <= 1.
Proof.
  assert (Hin : In (hd (group_of_sums zero zero zero
                          (mk_sums (KStr "") zero zero zero zero))
                       (_group_roi (of_Z 100) two_genders Dgender))
                   (_group_roi (of_Z 100) two_genders Dgender))
    by (left; reflexivity).
  destruct (proj1 (shares_between_zero_and_one
                     (of_Z 100) two_genders Dgender _ Hin)) with (t := qz 15)
    as [x Hx].
  - repeat constructor; unfold Qcle; simpl; discriminate.
  - qc_eq.
  - qc_neq.
  - eexists. exists x. split; [exact Hin | exact Hx].
Defined.

(** ** The KPIs of sanitized records *)

Import AggregatedFeatures.

Lemma guarded_ratio (n dn : Qc) :
  0 <= n -> 0 <= dn ->
  exists x,
    np_where (fgtb (Fin dn) zero) (fdiv (Fin n) (Fin dn)) zero = Fin x
    /\ 0 <= x /\ (n <= dn -> x <= 1).
Proof.
  intros Hn Hd. unfold np_where.
  destruct (fgtb (Fin dn) zero) eqn:E.
  - apply (fltb_Fin 0 dn) in E.
    rewrite (fdiv_Fin_nonzero dn (s_nonzero' dn E)).
    exists (n / dn). split; [reflexivity|]. split.
    + apply (quotient_ge dn n E). now rewrite Qcmult_0_l.
    + intros L. apply (quotient_le dn n 1 E). now rewrite Qcmult_1_l.
  - exists 0. split; [reflexivity|].
    split; [apply Qcle_refl|]. intros _. unfold Qcle; simpl; discriminate.
Qed.

(** X10. For a record whose five counters are numbers not below 0, the
    click-through rate, the two conversion rates and the cost per 1000
    impressions are never missing and never negative: each is a number not
    below 0 or plus infinity (the exact quotients of the model are always
    numbers; a float64 quotient of two numbers can overflow to plus
    infinity).  Each rate is a number between 0 and 1 when its numerator
    does not exceed its denominator.  The cost per acquisition is
    not-a-number or, likewise, not negative. *)
Theorem kpis_of_sanitized_record (r : record) (i c s t a : Qc) :
  impressions r = Fin i -> clicks r = Fin c -> spent r = Fin s ->
  total_conversion r = Fin t -> approved_conversion r = Fin a ->
  0 <= i -> 0 <= c -> 0 <= s -> 0 <= t -> 0 <= a ->
  MarketingDataCleaner.sanitized (ctr (kpi_row r))
  /\ MarketingDataCleaner.sanitized (conversion_rate (kpi_row r))
  /\ MarketingDataCleaner.sanitized (approved_conversion_rate (kpi_row r))
  /\ MarketingDataCleaner.sanitized (cpm (kpi_row r))
  /\ (cost_per_acquisition (kpi_row r) = NaN
      \/ MarketingDataCleaner.sanitized (cost_per_acquisition (kpi_row r)))
  /\ (c <= i -> exists x, ctr (kpi_row r) = Fin x /\ 0 <= x <= 1)
  /\ (t <= c ->
      exists x, conversion_rate (kpi_row r) = Fin x /\ 0 <= x <= 1)
  /\ (a <= t ->
      exists x, approved_conversion_rate (kpi_row r) = Fin x
                /\ 0 <= x <= 1).
Proof.
  intros Hi Hc Hs Ht Ha Pi Pc Ps Pt Pa.
  unfold kpi_row, MarketingDataCleaner.sanitized.
  cbn [ctr conversion_rate approved_conversion_rate cpm
       cost_per_acquisition].
  rewrite Hi, Hc, Hs, Ht, Ha.
  destruct (guarded_ratio c i Pc Pi) as [x1 [E1 [P1 L1]]].
  destruct (guarded_ratio t c Pt Pc) as [x2 [E2 [P2 L2]]].
  destruct (guarded_ratio a t Pa Pt) as [x3 [E3 [P3 L3]]].
  rewrite E1, E2, E3.
  split; [right; eauto|]. split; [right; eauto|]. split; [right; eauto|].
  split; [|split; [|split; [|split]]].
  - right. unfold np_where. destruct (fgtb (Fin i) zero) eqn:E.
    + apply (fltb_Fin 0 i) in E.
      rewrite (fdiv_Fin_nonzero i (s_nonzero' i E)).
      exists (s / i * qz 1000). split; [reflexivity|].
      rewrite <- (Qcmult_0_l (qz 1000)).
      apply Qcmult_le_compat_r; [|unfold Qcle; simpl; discriminate].
      apply (quotient_ge i s E). now rewrite Qcmult_0_l.
    + exists 0. split; [reflexivity | apply Qcle_refl].
  - unfold np_where. destruct (fgtb (Fin a) zero) eqn:E; [|now left].
    right. right. apply (fltb_Fin 0 a) in E.
    rewrite (fdiv_Fin_nonzero a (s_nonzero' a E)).
    exists (s / a). split; [reflexivity|].
    apply (quotient_ge a s E). now rewrite Qcmult_0_l.
  - intros L. exists x1. split; [reflexivity|]. split; [exact P1 | auto].
  - intros L. exists x2. split; [reflexivity|]. split; [exact P2 | auto].
  - intros L. exists x3. split; [reflexivity|]. split; [exact P3 | auto].
Qed.

Lemma kpis_of_sanitized_record_witness :
  MarketingDataCleaner.sanitized (cpm (kpi_row male_25_34))
  /\ exists x, ctr (kpi_row male_25_34) = Fin x /\ 0 <= x <= 1.
Proof.
  destruct (kpis_of_sanitized_record male_25_34
              (qz 1000) (qz 50) (qz 10) (qz 3) (qz 2)
              eq_refl eq_refl eq_refl eq_refl eq_refl)
    as [_ [_ [_ [Hcpm [_ [Hctr _]]]]]];
    try (unfold Qcle; simpl; discriminate).
  split; [exact Hcpm|]. apply Hctr. unfold Qcle; simpl; discriminate.
Defined.

(** ** Demographic segments as keys *)

Lemma segment_split (g1 g2 a1 a2 : string) :
  no_underscore g1 = true -> no_underscore g2 = true ->
  g1 ++ "_" ++ a1 = g2 ++ "_" ++ a2 -> g1 = g2 /\ a1 = a2.
Proof.
  revert g2. induction g1 as [|c g1 IH]; intros [|c' g2]; simpl.
  - intros _ _ H. injection H as H. now split.
  - intros _ H2 H. injection H as Hc _. subst c'.
    simpl in H2. discriminate H2.
  - intros H1 _ H. injection H as Hc _. subst c.
    simpl in H1. discriminate H1.
  - intros H1 H2 H. injection H as Hc H. subst c'.
    destruct (Ascii.eqb c "_"); [discriminate H1|].
    destruct (IH g2 H1 H2 H) as [-> ->]. now split.
Qed.

(** X11. Two records whose genders hold no underscore have the same
    demographic segment only if they have the same gender and the same
    age; with an underscore in a gender, two different pairs of gender
    and age can share a segment. *)
Theorem demographic_segment_injective (r1 r2 : record)
  (g1 a1 g2 a2 : string) :
  gender r1 = Some g1 -> age r1 = Some a1 ->
  gender r2 = Some g2 -> age r2 = Some a2 ->
  (no_underscore g1 = true -> no_underscore g2 = true ->
   demographic_segment (demographic_row r1)
   = demographic_segment (demographic_row r2) ->
   g1 = g2 /\ a1 = a2)
  /\ (g1 = "A_" -> a1 = "B" -> g2 = "A" -> a2 = "_B" ->
      demographic_segment (demographic_row r1)
      = demographic_segment (demographic_row r2)).
Proof.
  intros Hg1 Ha1 Hg2 Ha2.
  unfold demographic_row. cbn [demographic_segment].
  rewrite Hg1, Ha1, Hg2, Ha2. cbn [str_add].
  rewrite !append_assoc'. split.
  - intros N1 N2 H. injection H as H. now apply segment_split.
  - intros -> -> -> ->. reflexivity.
Qed.

Lemma demographic_segment_injective_witness :
  "MALE" = "MALE" /\ "25-34" = "25-34".
Proof.
  refine (proj1 (demographic_segment_injective male_25_34 male_25_34
                   "MALE" "25-34" "MALE" "25-34"
                   eq_refl eq_refl eq_refl eq_refl) _ _ _);
    reflexivity.
Defined.

(** ** The merges of the aggregated features *)

Lemma key_eqb_eq (a b : key) : key_eqb a b = true <-> a = b.
Proof.
  unfold key_eqb. destruct (key_eq_dec a b); split; congruence.
Qed.

Lemma filter_none {A : Type} (f : A -> bool) (l : list A) :
  (forall x, In x l -> f x = false) -> filter f l = [].
Proof.
  induction l as [|x l IH]; simpl; intros H; [reflexivity|].
  rewrite (H x (or_introl eq_refl)). apply IH.
  intros y Hy. apply H. now right.
Qed.

(** A key of a table without duplicate keys selects its one row. *)
Lemma filter_unique_key {B : Type} (F : key -> B) (ks : list key)
  (k : key) :
  NoDup ks -> In k ks ->
  filter (fun kb => key_eqb (fst kb) k) (map (fun k => (k, F k)) ks)
  = [(k, F k)].
Proof.
  induction 1 as [|k' ks Hk' Hks IH]; intros Hin; [contradiction|].
  cbn [map filter fst].
  destruct (key_eq_dec k' k) as [->|Hne].
  - replace (key_eqb k k) with true by (symmetry; now apply key_eqb_eq).
    f_equal. apply filter_none. intros [k2 b] H2. cbn [fst].
    apply in_map_iff in H2. destruct H2 as [k3 [E H3]].
    injection E as -> _.
    destruct (key_eqb k2 k) eqn:E2; [|reflexivity].
    apply key_eqb_eq in E2. subst k2. contradiction.
  - replace (key_eqb k' k) with false.
    + apply IH. destruct Hin as [E|Hin]; [contradiction | exact Hin].
    + symmetry. destruct (key_eqb k' k) eqn:E; [|reflexivity].
      apply key_eqb_eq in E. contradiction.
Qed.

Lemma merge_left_lookup {A B : Type} (lkey : A -> option key)
  (F : key -> B) (ks : list key) (left : list A) :
  NoDup ks ->
  (forall a k, In a left -> lkey a = Some k -> In k ks) ->
  merge_left lkey left (map (fun k => (k, F k)) ks)
  = map (fun a => (a, option_map F (lkey a))) left.
Proof.
  intros Hnd. induction left as [|a left IH]; intros Hks; [reflexivity|].
  change (merge_left lkey (a :: left) (map (fun k => (k, F k)) ks))
    with (app (merge_row lkey (map (fun k => (k, F k)) ks) a)
              (merge_left lkey left (map (fun k => (k, F k)) ks))).
  rewrite IH by (intros a' k Ha; apply Hks; now right).
  unfold merge_row. cbn [map].
  destruct (lkey a) as [k|] eqn:Ek; [|reflexivity].
  rewrite (filter_unique_key F ks k Hnd (Hks a k (or_introl eq_refl) Ek)).
  reflexivity.
Qed.

Lemma filter_map_comm {A B : Type} (p : B -> bool) (h : A -> B)
  (l : list A) :
  filter p (map h l) = map h (filter (fun x => p (h x)) l).
Proof.
  induction l as [|x l IH]; simpl; [reflexivity|].
  rewrite IH. destruct (p (h x)); reflexivity.
Qed.

Lemma aggregated_features_rows (df : list featured) :
  create_aggregated_features df
  = map (fun r =>
           let merged :=
             map (fun a => (a, option_map (campaign_aggregates_of df)
                                          (column Dcampaign_id a))) df in
           ((r, option_map (campaign_aggregates_of df)
                           (column Dcampaign_id r)),
            option_map (segment_aggregates_of merged)
                       (column Ddemographic_segment r)))
        df.
Proof.
  unfold create_aggregated_features, campaign_metrics_of.
  rewrite (merge_left_lookup (column Dcampaign_id) _ _ df
             (group_keys_NoDup _ df)).
  2:{ intros a k Ha Hk. apply group_keys_In. eauto. }
  set (merged := map (fun a => (a, option_map (campaign_aggregates_of df)
                                              (column Dcampaign_id a))) df).
  assert (Em : map fst merged = df).
  { unfold merged. rewrite map_map. cbn [fst]. apply map_id. }
  unfold segment_metrics_of. rewrite Em.
  rewrite (merge_left_lookup
             (fun r => column Ddemographic_segment (fst r)) _ _ merged
             (group_keys_NoDup _ df)).
  2:{ intros a k Ha Hk. apply group_keys_In. exists (fst a).
      split; [|exact Hk]. rewrite <- Em. now apply in_map. }
  unfold merged at 2. rewrite map_map. reflexivity.
Qed.

(** X12. [create_aggregated_features] keeps the rows of the table, each
    once and in order.  A row whose campaign id is present receives the
    totals of its campaign (the sums of spend and of approved conversions
    over the rows of that campaign), a row whose campaign id is missing
    receives none; likewise the spend total of its demographic
    segment. *)
Theorem aggregated_features_keep_rows (df : list featured) :
  map (fun x => fst (fst x)) (create_aggregated_features df) = df
  /\ (forall x, In x (create_aggregated_features df) ->
        match column Dcampaign_id (fst (fst x)) with
        | Some k =>
            exists a,
              snd (fst x) = Some a
              /\ campaign_total_spend a
                 = pd_sum (map df_spent
                               (group_rows (column Dcampaign_id) df k))
              /\ campaign_total_conversions a
                 = pd_sum (map df_approved_conversion
                               (group_rows (column Dcampaign_id) df k))
        | None => snd (fst x) = None
        end)
  /\ (forall x, In x (create_aggregated_features df) ->
        match column Ddemographic_segment (fst (fst x)) with
        | Some k =>
            exists a,
              snd x = Some a
              /\ segment_total_spend a
                 = pd_sum
                     (map df_spent
                          (group_rows (column Ddemographic_segment) df k))
        | None => snd x = None
        end).
Proof.
  rewrite aggregated_features_rows. cbn zeta.
  split; [|split].
  - rewrite map_map. cbn [fst]. apply map_id.
  - intros x Hx. apply in_map_iff in Hx. destruct Hx as [r [<- _]].
    cbn [fst snd].
    destruct (column Dcampaign_id r) as [k|]; [|reflexivity].
    eexists. split; [reflexivity|]. split; reflexivity.
  - intros x Hx. apply in_map_iff in Hx. destruct Hx as [r [<- _]].
    cbn [fst snd].
    destruct (column Ddemographic_segment r) as [k|]; [|reflexivity].
    eexists. split; [reflexivity|].
    unfold segment_aggregates_of. cbn [segment_total_spend].
    rewrite filter_map_comm, !map_map. cbn [fst]. reflexivity.
Qed.

Lemma aggregated_features_keep_rows_witness :
  exists x a,
    In x (create_aggregated_features two_genders)
    /\ snd (fst x) = Some a
    /\ campaign_total_spend a = of_Z 15.
Proof.
  assert (Hin : In (hd ((zero_featured, None), None)
                       (create_aggregated_features two_genders))
                   (create_aggregated_features two_genders))
    by (left; reflexivity).
  destruct (proj1 (proj2 (aggregated_features_keep_rows two_genders))
              _ Hin) as [a [Ha [Hs _]]].
  eexists. exists a. split; [exact Hin|]. split; [exact Ha|].
  rewrite Hs. qc_eq.
Defined.

Lemma pd_mean_all_missing (l : list fnum) :
  (forall x, In x l -> x = NaN) -> pd_mean l = NaN.
Proof.
  intros H. unfold pd_mean. rewrite filter_none; [reflexivity|].
  intros x Hx. now rewrite (H x Hx).
Qed.

(** X13. After the feature pipeline, a campaign none of whose rows has an
    approved conversion above 0 gets not-a-number as its average cost per
    acquisition in every one of its rows (not 0), since the mean skips the
    missing costs and none is left. *)
Theorem campaign_avg_cpa_without_conversions (recs : list record)
  (x : (featured * option campaign_aggregates) * option segment_aggregates)
  (k : key) :
  In x (create_aggregated_features (run_full_pipeline recs)) ->
  column Dcampaign_id (fst (fst x)) = Some k ->
  (forall r, In r recs -> option_map KStr (campaign_id r) = Some k ->
             fgtb (approved_conversion r) zero = false) ->
  exists a, snd (fst x) = Some a /\ campaign_avg_cpa a = NaN.
Proof.
  rewrite aggregated_features_rows. cbn zeta.
  intros Hx Hk Hall. apply in_map_iff in Hx. destruct Hx as [r [<- _]].
  cbn [fst snd] in *. rewrite Hk. eexists. split; [reflexivity|].
  unfold campaign_aggregates_of. cbn [campaign_avg_cpa].
  apply pd_mean_all_missing. intros y Hy.
  apply in_map_iff in Hy. destruct Hy as [f [<- Hf]].
  unfold group_rows in Hf. apply filter_In in Hf. destruct Hf as [Hf Hkey].
  unfold run_full_pipeline in Hf. apply in_map_iff in Hf.
  destruct Hf as [rec [<- Hrec]].
  cbn [kpi kpi_row cost_per_acquisition].
  unfold has_key, column in Hkey. cbn [base] in Hkey.
  rewrite (Hall rec Hrec); [reflexivity|].
  destruct (campaign_id rec) as [id|]; [|discriminate Hkey].
  cbn [option_map] in *. apply key_eqb_eq in Hkey. now rewrite Hkey.
Qed.

Lemma campaign_avg_cpa_without_conversions_witness :
  exists x a,
    In x (create_aggregated_features (run_full_pipeline [zero_record]))
    /\ snd (fst x) = Some a /\ campaign_avg_cpa a = NaN.
Proof.
  assert (Hin : In (hd ((zero_featured, None), None)
                       (create_aggregated_features
                          (run_full_pipeline [zero_record])))
                   (create_aggregated_features
                      (run_full_pipeline [zero_record])))
    by (left; reflexivity).
  destruct (campaign_avg_cpa_without_conversions [zero_record] _
              (KStr "C1") Hin eq_refl) as [a [Ha Hn]].
  - intros r [<-|[]] _. reflexivity.
  - eexists. exists a. split; [exact Hin|]. split; assumption.
Defined.

(** ** The data cleaner *)

Import MarketingDataCleaner.

Section Cleaning.

Variable parse_number : string -> fnum.
Variable parse_date : string -> option date.

Lemma row_eqb_eq (x y : cleaning_row) : row_eqb x y = true <-> x = y.
Proof.
  unfold row_eqb. destruct (cleaning_row_eq_dec x y); split; congruence.
Qed.

Lemma drop_duplicates_In (l : list cleaning_row) (x : cleaning_row) :
  In x (drop_duplicates l) <-> In x l.
Proof.
  induction l as [|h t IH]; simpl; [tauto|].
  rewrite filter_In, IH. split.
  - intros [E|[H _]]; auto.
  - intros [E|H]; [now left|].
    destruct (cleaning_row_eq_dec h x) as [E|N]; [now left|].
    right. split; [exact H|].
    destruct (row_eqb h x) eqn:B; [|reflexivity].
    apply row_eqb_eq in B. contradiction.
Qed.

Lemma drop_duplicates_NoDup (l : list cleaning_row) :
  NoDup (drop_duplicates l).
Proof.
  induction l as [|h t IH]; simpl; constructor.
  - rewrite filter_In. intros [_ H].
    replace (row_eqb h h) with true in H
      by (symmetry; now apply row_eqb_eq).
    discriminate H.
  - now apply NoDup_filter.
Qed.

Lemma drop_duplicates_fixed (l : list cleaning_row) :
  NoDup l -> drop_duplicates l = l.
Proof.
  induction 1 as [|h t Hh Ht IH]; simpl; [reflexivity|].
  rewrite IH. f_equal. apply filter_all. intros y Hy.
  destruct (row_eqb h y) eqn:B; [|reflexivity].
  apply row_eqb_eq in B. subst y. contradiction.
Qed.

(** X14. [remove_duplicates] leaves a table without two equal rows, with
    the same rows as before and the first row unchanged; a table without
    duplicates is left as it is, so removing twice changes nothing
    more. *)
Theorem remove_duplicates_spec (df : list cleaning_row) :
  NoDup (remove_duplicates df)
  /\ (forall x, In x (remove_duplicates df) <-> In x df)
  /\ hd_error (remove_duplicates df) = hd_error df
  /\ (NoDup df -> remove_duplicates df = df)
  /\ remove_duplicates (remove_duplicates df) = remove_duplicates df.
Proof.
  unfold remove_duplicates.
  split; [apply drop_duplicates_NoDup|].
  split; [intros x; apply drop_duplicates_In|].
  split; [destruct df; reflexivity|].
  split; [apply drop_duplicates_fixed|].
  apply drop_duplicates_fixed, drop_duplicates_NoDup.
Qed.

Lemma sanitize_cell (x : fnum) :
  sanitized (clip_negative (fillna_zero x)).
Proof.
  unfold sanitized, clip_negative, fillna_zero.
  destruct x as [q| | |]; cbn [is_nan].
  - destruct (fltb (Fin q) zero) eqn:E.
    + right. exists 0. split; [reflexivity | apply Qcle_refl].
    + right. exists q. split; [reflexivity|].
      now apply (fltb_Fin_false q 0).
  - now left.
  - right. exists 0. split; [reflexivity | apply Qcle_refl].
  - right. exists 0. split; [reflexivity | apply Qcle_refl].
Qed.

(** The rows of the cleaned table are the cleaned forms of the raw
    rows. *)
Lemma pipeline_In (df : list raw_record) (out : cleaned) :
  In out (run_full_pipeline parse_number parse_date df)
  <-> exists r, In r df /\ out = clean_one parse_number parse_date r.
Proof.
  unfold clean_one, run_full_pipeline, create_basic_derived_features,
    clean_categorical_data, remove_duplicates, validate_numeric_columns,
    handle_missing_values, clean_dates.
  split.
  - intros H.
    apply in_map_iff in H. destruct H as [c [<- Hc]].
    apply in_map_iff in Hc. destruct Hc as [c' [<- Hc]].
    apply (proj1 (drop_duplicates_In _ _)) in Hc.
    apply in_map_iff in Hc. destruct Hc as [c2 [<- Hc]].
    apply in_map_iff in Hc. destruct Hc as [d [<- Hd]].
    apply in_map_iff in Hd. destruct Hd as [r [<- Hr]].
    exists r. split; [exact Hr | reflexivity].
  - intros [r [Hr ->]].
    apply in_map, in_map. apply (proj2 (drop_duplicates_In _ _)).
    apply in_map, in_map, in_map. exact Hr.
Qed.

End Cleaning.

(** X15. Whatever the raw table and however text cells parse, every
    counter of every row of the cleaned table is a number not below 0 or
    plus infinity: never missing, never negative. *)
Theorem cleaned_counters_sanitized (parse_number : string -> fnum)
  (parse_date : string -> option date) (df : list raw_record)
  (out : cleaned) :
  In out (run_full_pipeline parse_number parse_date df) ->
  Forall (fun x => x = PInf \/ exists q, x = Fin q /\ 0 <= q)
         (counters (row (cleaning out))).
Proof.
  intros H. apply pipeline_In in H. destruct H as [r [_ ->]].
  unfold counters, clean_one.
  cbn [derive_row clean_categorical_row validate_row handle_missing_row
       cleaning row impressions clicks spent total_conversion
       approved_conversion].
  repeat (apply Forall_cons; [apply sanitize_cell|]). apply Forall_nil.
Qed.

Lemma cleaned_counters_sanitized_witness :
  exists out,
    In out (run_full_pipeline no_number no_date [dirty_row])
    /\ Forall (fun x => x = PInf \/ exists q, x = Fin q /\ 0 <= q)
              (counters (row (cleaning out))).
Proof.
  eexists.
  assert (Hin : In (clean_one no_number no_date dirty_row)
                   (run_full_pipeline no_number no_date [dirty_row]))
    by (left; reflexivity).
  split; [exact Hin|].
  exact (cleaned_counters_sanitized no_number no_date [dirty_row] _ Hin).
Defined.

(** X16. In the cleaned table no gender and no age is missing, and every
    raw row has its cleaned form in the table: a raw row without gender
    comes out with gender UNKNOWN (the fill value, upper-cased), a raw row
    without age with age Unknown, and the campaign id is untouched. *)
Theorem cleaned_categories_filled (parse_number : string -> fnum)
  (parse_date : string -> option date) (df : list raw_record) :
  (forall out,
      In out (run_full_pipeline parse_number parse_date df) ->
      gender (row (cleaning out)) <> None
      /\ age (row (cleaning out)) <> None)
  /\ (forall r,
         In r df ->
         exists out,
           In out (run_full_pipeline parse_number parse_date df)
           /\ campaign_id (row (cleaning out)) = raw_campaign_id r
           /\ (raw_gender r = None ->
               gender (row (cleaning out)) = Some "UNKNOWN")
           /\ (raw_age r = None ->
               age (row (cleaning out)) = Some "Unknown")).
Proof.
  split.
  - intros out H. apply pipeline_In in H. destruct H as [r [_ ->]].
    unfold clean_one.
    cbn [derive_row clean_categorical_row validate_row handle_missing_row
         clean_dates_row source cleaning row gender age].
    destruct (raw_gender r), (raw_age r); split; discriminate.
  - intros r Hr. exists (clean_one parse_number parse_date r). split.
    + apply pipeline_In. exists r. split; [exact Hr | reflexivity].
    + unfold clean_one.
      cbn [derive_row clean_categorical_row validate_row handle_missing_row
           clean_dates_row source cleaning row gender age campaign_id].
      split; [reflexivity|]. split; intros ->; reflexivity.
Qed.

Lemma cleaned_categories_filled_witness :
  exists out,
    In out (run_full_pipeline no_number no_date [dirty_row])
    /\ gender (row (cleaning out)) = Some "UNKNOWN"
    /\ age (row (cleaning out)) = Some "Unknown".
Proof.
  destruct (proj2 (cleaned_categories_filled no_number no_date [dirty_row])
              dirty_row (or_introl eq_refl))
    as [out [Hin [_ [Hg Ha]]]].
  exists out. split; [exact Hin|].
  split; [apply Hg | apply Ha]; reflexivity.
Defined.

(** X17. Duplicates are removed before the categories are cleaned, so
    the cleaned table can hold equal rows: two raw rows that differ only
    in their gender texts, when these texts clean to the same text, come
    out as two equal rows. *)
Theorem duplicates_after_categorical_cleaning
  (parse_number : string -> fnum) (parse_date : string -> option date)
  (r : raw_record) (g1 g2 : string) :
  raw_gender r = Some g1 -> g1 <> g2 ->
  strip (upper g1) = strip (upper g2) ->
  run_full_pipeline parse_number parse_date [r; with_gender r (Some g2)]
  = [clean_one parse_number parse_date r;
     clean_one parse_number parse_date r].
Proof.
  intros Hg Hne Hs.
  unfold run_full_pipeline, remove_duplicates, validate_numeric_columns,
    handle_missing_values, clean_dates.
  cbn [map drop_duplicates filter].
  match goal with
  | |- context [row_eqb ?x ?y] =>
      assert (E : row_eqb x y = false)
  end.
  { match goal with |- row_eqb ?x ?y = false =>
      destruct (row_eqb x y) eqn:B; [|reflexivity] end.
    apply row_eqb_eq in B. apply (f_equal (fun c => gender (row c))) in B.
    cbn [validate_row handle_missing_row clean_dates_row source row gender
         with_gender raw_gender] in B.
    rewrite Hg in B. cbn [fillna_unknown] in B. injection B as B.
    contradiction. }
  rewrite E. cbn [negb].
  unfold clean_categorical_data, create_basic_derived_features, clean_one.
  cbn [map]. f_equal. f_equal. f_equal.
  unfold clean_categorical_row, validate_row, handle_missing_row,
    clean_dates_row.
  cbn [row campaign_duration_days with_gender source
       start_date end_date duration_days raw_campaign_id
       raw_reporting_start raw_reporting_end raw_impressions raw_clicks
       raw_spent raw_total_conversion raw_approved_conversion raw_age
       raw_gender campaign_id reporting_start reporting_end impressions
       clicks spent total_conversion approved_conversion age gender].
  rewrite Hg. cbn [fillna_unknown option_map]. rewrite Hs. reflexivity.
Qed.

Lemma duplicates_after_categorical_cleaning_witness :
  exists c,
    run_full_pipeline no_number no_date
      [with_gender dirty_row (Some "m");
       with_gender (with_gender dirty_row (Some "m")) (Some " M")]
    = [c; c].
Proof.
  eexists.
  apply (duplicates_after_categorical_cleaning no_number no_date
           (with_gender dirty_row (Some "m")) "m" " M").
  - reflexivity.
  - discriminate.
  - reflexivity.
Defined.

Lemma table_sizes_witness :
  exists g,
    In g (_group_roi (of_Z 100) one_week Dday_of_week)
    /\ In (g_key g) weekdays.
Proof.
  eexists.
  assert (Hin : In (hd (group_of_sums zero zero zero
                          (mk_sums (KStr "") zero zero zero zero))
                       (_group_roi (of_Z 100) one_week Dday_of_week))
                   (_group_roi (of_Z 100) one_week Dday_of_week))
    by (left; reflexivity).
  split; [exact Hin|].
  exact (proj2 (proj2 (proj2 (table_sizes (of_Z 100) one_week
                                Dday_of_week))) _ Hin).
Defined.

Lemma remove_duplicates_spec_witness :
  remove_duplicates
    [clean_categorical_row
       (handle_missing_row no_number (clean_dates_row no_date dirty_row))]
  = [clean_categorical_row
       (handle_missing_row no_number (clean_dates_row no_date dirty_row))].
Proof.
  refine (proj1 (proj2 (proj2 (proj2
            (remove_duplicates_spec
               [clean_categorical_row
                  (handle_missing_row no_number
                     (clean_dates_row no_date dirty_row))])))) _).
  constructor; [intros [] | constructor].
Defined.

(** ** Validation of the counters *)

Lemma clip_negative_idem (x : fnum) :
  clip_negative (clip_negative x) = clip_negative x.
Proof.
  unfold clip_negative. destruct (fltb x zero) eqn:E; [reflexivity|].
  now rewrite E.
Qed.

(** X18. [validate_numeric_columns] changes nothing when applied a second
    time, and leaves as it is a table none of whose counters is below
    0. *)
Theorem validate_numeric_columns_idempotent (df : list cleaning_row) :
  validate_numeric_columns (validate_numeric_columns df)
  = validate_numeric_columns df
  /\ ((forall c, In c df ->
                 Forall (fun x => fltb x zero = false) (counters (row c))) ->
      validate_numeric_columns df = df).
Proof.
  unfold validate_numeric_columns. split.
  - rewrite map_map. apply map_ext. intros c.
    unfold validate_row.
    cbn [row campaign_duration_days campaign_id reporting_start
         reporting_end impressions clicks spent total_conversion
         approved_conversion age gender].
    now rewrite !clip_negative_idem.
  - intros H. rewrite <- (map_id df) at 2. apply map_ext_in.
    intros c Hc. specialize (H c Hc).
    destruct c as [[id s e i k p t a ag g] d].
    unfold counters in H.
    cbn [row impressions clicks spent total_conversion
         approved_conversion] in H.
    inversion_clear H as [|? ? Hi H1]. inversion_clear H1 as [|? ? Hk H2].
    inversion_clear H2 as [|? ? Hp H3]. inversion_clear H3 as [|? ? Ht H4].
    inversion_clear H4 as [|? ? Ha _].
    unfold validate_row, clip_negative.
    cbn [row campaign_duration_days campaign_id reporting_start
         reporting_end impressions clicks spent total_conversion
         approved_conversion age gender].
    now rewrite Hi, Hk, Hp, Ht, Ha.
Qed.

Lemma validate_numeric_columns_idempotent_witness :
  validate_numeric_columns [mk_cleaning_row zero_record None]
  = [mk_cleaning_row zero_record None].
Proof.
  refine (proj2 (validate_numeric_columns_idempotent
                   [mk_cleaning_row zero_record None]) _).
  intros c [<-|[]]. repeat constructor.
Defined.

(** ** Tiers on the store *)

Lemma dict_get_None (name : string) (st : store) :
  dict_get name st = None <-> ~ In name (map fst st).
Proof.
  induction st as [|[n o] rest IH]; simpl; [tauto|].
  destruct (String.eqb n name) eqn:E.
  - apply String.eqb_eq in E. split; [discriminate | intros H].
    exfalso. apply H. now left.
  - apply String.eqb_neq in E. rewrite IH. tauto.
Qed.

Lemma dict_get_In (name : string) (st : store) (o : pyobj) :
  dict_get name st = Some o -> In (name, o) st.
Proof.
  induction st as [|[n o'] rest IH]; simpl; [discriminate|].
  destruct (String.eqb n name) eqn:E.
  - apply String.eqb_eq in E. intros H. injection H as ->. subst n.
    now left.
  - intros H. right. now apply IH.
Qed.

Lemma dict_get_set (name : string) (o : pyobj) (st : store) :
  dict_get name (dict_set name o st) = Some o.
Proof.
  induction st as [|[n o'] rest IH]; simpl.
  - now rewrite String.eqb_refl.
  - destruct (String.eqb n name) eqn:E; simpl; now rewrite E.
Qed.

Lemma dict_set_set (name : string) (o o' : pyobj) (st : store) :
  dict_set name o (dict_set name o' st) = dict_set name o st.
Proof.
  induction st as [|[n o2] rest IH]; simpl.
  - now rewrite String.eqb_refl.
  - destruct (String.eqb n name) eqn:E; simpl; rewrite E;
      [reflexivity | now rewrite IH].
Qed.

Lemma dict_set_keys (name : string) (o : pyobj) (st : store) :
  In name (map fst st) -> map fst (dict_set name o st) = map fst st.
Proof.
  induction st as [|[n o2] rest IH]; simpl; [contradiction|].
  destruct (String.eqb n name) eqn:E; [reflexivity|].
  apply String.eqb_neq in E. intros [H|H]; [contradiction|].
  simpl. now rewrite IH.
Qed.

Lemma metrics_of_tiers (t : list campaign_row) :
  map metrics (assign_performance_tiers t) = t.
Proof.
  unfold assign_performance_tiers. rewrite map_map. apply map_id.
Qed.

(** X19. On a store filled by the methods, [assign_performance_tiers]
    raises [KeyError] exactly when [calculate_campaign_roi] has not been
    called; when it succeeds it keeps the keys of the store and their
    order, gives every campaign row one tier and leaves its metrics as
    they were, and a second call changes nothing. *)
Theorem assign_tiers_on_store (st : store) :
  built st ->
  (store_tiers st = inl KeyError
   <-> ~ In "campaign_metrics" (map fst st))
  /\ (forall st',
         store_tiers st = inr st' ->
         map fst st' = map fst st
         /\ store_tiers st' = inr st'
         /\ exists t,
             dict_get "campaign_metrics" st'
             = Some (ODataFrame (TieredTable (assign_performance_tiers t)))
             /\ (dict_get "campaign_metrics" st
                 = Some (ODataFrame (CampaignTable t))
                 \/ exists t', dict_get "campaign_metrics" st
                               = Some (ODataFrame (TieredTable t'))
                               /\ map metrics t' = t)).
Proof.
  intros Hb. apply built_entries in Hb. rewrite Forall_forall in Hb.
  rewrite <- dict_get_None. unfold store_tiers.
  destruct (dict_get "campaign_metrics" st) as [o|] eqn:G.
  - pose proof (dict_get_In _ _ _ G) as Hin.
    assert (Hk : In "campaign_metrics" (map fst st)).
    { apply in_map_iff. exists ("campaign_metrics", o). now split. }
    destruct (Hb _ Hin)
      as [[[_ [[t Ho]|[t Ho]]]|[[Hn _]|[Hn _]]]|[Hn _]];
      try discriminate Hn; simpl in Ho; subst o.
    + split; [split; discriminate|].
      intros st' H. injection H as <-.
      split; [now apply dict_set_keys|].
      rewrite dict_get_set, metrics_of_tiers, dict_set_set.
      split; [reflexivity|]. exists t. split; [reflexivity | now left].
    + split; [split; discriminate|].
      intros st' H. injection H as <-.
      split; [now apply dict_set_keys|].
      rewrite dict_get_set, metrics_of_tiers, dict_set_set.
      split; [reflexivity|]. exists (map metrics t).
      split; [reflexivity|]. right. exists t. now split.
  - split; [tauto|]. intros st' H. discriminate H.
Qed.

Lemma assign_tiers_on_store_witness :
  store_tiers (store_overall (of_Z 100) two_genders []) = inl KeyError
  /\ exists st',
      store_tiers (store_campaign (of_Z 100) two_genders []) = inr st'
      /\ store_tiers st' = inr st'.
Proof.
  split.
  - apply (assign_tiers_on_store (store_overall (of_Z 100) two_genders [])
             (built_overall _ _ _ built_empty)).
    intros [E|[]]. discriminate E.
  - eexists. split; [reflexivity|].
    apply (assign_tiers_on_store
             (store_campaign (of_Z 100) two_genders [])
             (built_campaign _ _ _ built_empty)).
    reflexivity.
Defined.

(** ** The campaign totals of the two modules *)

(** X20. The campaign total of spend that the feature engineer merges
    into a row, and its total of approved conversions, are the spend and
    the approved conversions of that campaign's row in the campaign table
    of the ROI calculator. *)
Theorem campaign_totals_agree (cv : fnum) (df : list featured)
  (x : (featured * option campaign_aggregates) * option segment_aggregates)
  (c : campaign_row) :
  In x (create_aggregated_features df) ->
  In c (calculate_campaign_roi cv df) ->
  column Dcampaign_id (fst (fst x)) = Some (c_campaign_id c) ->
  exists a,
    snd (fst x) = Some a
    /\ campaign_total_spend a = c_spent c
    /\ campaign_total_conversions a = c_approved_conversion c.
Proof.
  intros Hx Hc Hk.
  rewrite aggregated_features_rows in Hx. cbn zeta in Hx.
  apply in_map_iff in Hx. destruct Hx as [r [<- _]].
  cbn [fst snd] in *. rewrite Hk.
  apply campaign_roi_In in Hc. destruct Hc as [s [Hs' ->]].
  apply groupby_sum_In in Hs'. destruct Hs' as [_ [Es Ea]].
  cbn [campaign_of_sums c_spent c_approved_conversion c_campaign_id] in *.
  eexists. split; [reflexivity|].
  unfold campaign_aggregates_of.
  cbn [campaign_total_spend campaign_total_conversions].
  split; congruence.
Qed.

Lemma campaign_totals_agree_witness :
  exists x c a,
    In x (create_aggregated_features two_genders)
    /\ In c (calculate_campaign_roi (of_Z 100) two_genders)
    /\ snd (fst x) = Some a
    /\ campaign_total_spend a = c_spent c.
Proof.
  assert (Hx : In (hd ((zero_featured, None), None)
                      (create_aggregated_features two_genders))
                  (create_aggregated_features two_genders))
    by (left; reflexivity).
  assert (Hc : In (hd (campaign_of_sums zero
                         (mk_sums (KStr "") zero zero zero zero))
                      (calculate_campaign_roi (of_Z 100) two_genders))
                  (calculate_campaign_roi (of_Z 100) two_genders))
    by (left; reflexivity).
  destruct (campaign_totals_agree (of_Z 100) two_genders _ _ Hx Hc eq_refl)
    as [a [Ha [Hs _]]].
  eexists. eexists. exists a.
  split; [exact Hx|]. split; [exact Hc|]. split; assumption.
Defined.
